(** * app-record-replay: the data manager and the HTTP controller

    A shallow embedding of [internal/data/manager.go] and of the HTTP
    controller (request validation, export and import of recorded data),
    with the properties of the design document proved over it.

    Go values are modelled as follows.
    - [int], [int64] and [time.Duration] are [Z]; the code only compares
      them with constants, so no wrap-around arises.
    - [float32] is [spec_float], the IEEE 754 datum with its NaN, its
      infinities and its two zeros; comparisons are [SFleb] and [SFltb].
    - [string] and [[]byte] are [string] (a list of 8-bit characters).
    - [error] is the text its [Error()] method returns; [nil] is [None].
    - [http.Header] and [url.Values] are [gmap string (list string)].
    - a call that panics yields [Panicked]; one that returns yields
      [Returned]. *)

From Stdlib Require Import ZArith String List Lia.
From Stdlib Require Import Floats.SpecFloat.
From stdpp Require Import base option gmap strings list.

Local Open Scope Z_scope.
Local Open Scope string_scope.

(** ** Go basics *)

(** The text of a Go [error]. *)
Definition error := string.

(** The result of running a Go function: it returns, or it panics. *)
Inductive outcome (A : Type) : Type :=
| Returned (a : A)
| Panicked (msg : string).
Arguments Returned {A} a.
Arguments Panicked {A} msg.

(** *** Buffered channels

    The value [make(chan T, n)] yields: its capacity and the values
    sent and not yet received, oldest first. *)
Module gochan.
Section chan.
Context {T : Type}.

Record chan := Chan { cap : nat; buf : list T }.

Definition make (n : nat) : chan := {| cap := n; buf := [] |}.
End chan.
Arguments chan : clear implicits.
End gochan.

(** ** pkg/dtos *)

Module dtos.
(** Modelled from the spec: [dtos.RecordRequest] is declared in
    [pkg/dtos], which is not among the sources. The fields are the two
    the controller reads; the spec gives the body of [POST /record] as
    [{duration?, eventLimit?}]. *)
Record RecordRequest := {
  Duration : Z;
  EventLimit : Z;
}.

(** Modelled from the spec: [dtos.ReplayRequest], body of
    [POST /replay], [{replayRate: float, repeatCount: integer}]. *)
Record ReplayRequest := {
  ReplayRate : spec_float;
  RepeatCount : Z;
}.

(** Modelled from the spec: [dtos.RecordedData], the unit of export and
    import: the recorded events with the devices and the profiles they
    refer to. The element types belong to go-mod-core-contracts and
    stay abstract. *)
Record RecordedData (Event Device DeviceProfile : Type) := {
  RecordedEvents : list Event;
  Devices : list Device;
  Profiles : list DeviceProfile;
}.
Arguments RecordedEvents {_ _ _} _.
Arguments Devices {_ _ _} _.
Arguments Profiles {_ _ _} _.
End dtos.

(** ** internal/data/manager.go *)

Module data.
Section manager.
(** [coreDtos.Event], [context.Context], [ApplicationService] and the
    status and data types of [pkg/dtos]. *)
Context {Event Ctx ApplicationService RecordStatusDto ReplayStatusDto RecordedDataDto : Type}.

Record dataManager := {
  dataChan : gochan.chan (list Event);
  ctx : Ctx;
  appSvc : ApplicationService;
}.

(** NewManager is the factory function which instantiates a Data Manager *)
Definition NewManager (ctx : Ctx) (service : ApplicationService) : dataManager :=
  {| dataChan := gochan.make 1; ctx := ctx; appSvc := service |}.

(** StartRecording starts a recording session based on the values in the
    request. An error is returned if the request data is incomplete or a
    record or replay session is currently running. *)
Definition StartRecording (m : dataManager) (request : dtos.RecordRequest)
  : outcome (option error * dataManager) :=
  Panicked "implement me".

(** CancelRecording cancels the current recording session *)
Definition CancelRecording (m : dataManager) : outcome dataManager :=
  Panicked "implement me".

(** RecordingStatus returns the status of the current recording session *)
Definition RecordingStatus (m : dataManager) : outcome (RecordStatusDto * dataManager) :=
  Panicked "implement me".

(** StartReplay starts a replay session based on the values in the
    request. An error is returned if the request data is incomplete or a
    record or replay session is currently running. *)
Definition StartReplay (m : dataManager) (request : dtos.ReplayRequest)
  : outcome (option error * dataManager) :=
  Panicked "implement me".

(** CancelReplay cancels the current replay session *)
Definition CancelReplay (m : dataManager) : outcome dataManager :=
  Panicked "implement me".

(** ReplayStatus returns the status of the current replay session *)
Definition ReplayStatus (m : dataManager) : outcome (ReplayStatusDto * dataManager) :=
  Panicked "implement me".

(** ExportRecordedData returns the data for the last record session *)
Definition ExportRecordedData (m : dataManager)
  : outcome (RecordedDataDto * option error * dataManager) :=
  Panicked "implement me".

(** ImportRecordedData imports data from a previously exported record
    session. *)
Definition ImportRecordedData (m : dataManager) (data : RecordedDataDto)
  : outcome (option error * dataManager) :=
  Panicked "implement me".

(** countEvents counts the number of Events the function receives.
    It returns [(false, nil)]. *)
Definition countEvents {AppFunctionContext Any : Type}
    (m : dataManager) (_ : AppFunctionContext) (data : Any)
  : outcome (bool * option Any * dataManager) :=
  Returned (false, None, m).

(** processBatchedData processes the batched data for the current
    recording session. It returns [(false, nil)]. *)
Definition processBatchedData {AppFunctionContext Any : Type}
    (m : dataManager) (_ : AppFunctionContext) (data : Any)
  : outcome (bool * option Any * dataManager) :=
  Returned (false, None, m).

(** A sequence of start attempts on one manager: each call runs on the
    manager the previous one left; a panic ends the sequence. *)
Inductive start :=
  | Record_ (request : dtos.RecordRequest)
  | Replay_ (request : dtos.ReplayRequest).

Definition attempt (m : dataManager) (s : start) : outcome (option error * dataManager) :=
  match s with
  | Record_ request => StartRecording m request
  | Replay_ request => StartReplay m request
  end.

Fixpoint attempts (m : dataManager) (l : list start) : outcome (list (option error) * dataManager) :=
  match l with
  | [] => Returned ([], m)
  | s :: l =>
      match attempt m s with
      | Panicked msg => Panicked msg
      | Returned (err, m') =>
          match attempts m' l with
          | Panicked msg => Panicked msg
          | Returned (errs, m'') => Returned (err :: errs, m'')
          end
      end
  end.
End manager.
Arguments dataManager : clear implicits.
End data.

(** ** net/http, net/url, strconv *)

Module http.
Definition StatusOK : Z := 200.
Definition StatusAccepted : Z := 202.
Definition StatusBadRequest : Z := 400.
Definition StatusInternalServerError : Z := 500.

(** [Header.Get] and [Values.Get]: the first value stored under the
    key, the empty string when there is none. The keys the controller
    uses are in canonical form already. *)
Definition Get (m : gmap string (list string)) (key : string) : string :=
  match m !! key with
  | Some (v :: _) => v
  | _ => EmptyString
  end.

(** The request as a handler reads it: the headers, the parsed query of
    the URL and the body, an [io.ReadCloser]. *)
Record Request (Reader : Type) := {
  Header : gmap string (list string);
  Query : gmap string (list string);
  Body : Reader;
}.
Arguments Header {_} _.
Arguments Query {_} _.
Arguments Body {_} _.

(** The response as it is sent. The status line is committed by the
    first [WriteHeader], or by the first [Write] (with 200) when none
    came before; later calls of [WriteHeader] and later changes of the
    headers do not reach the client. Writes do not fail. *)
Record ResponseWriter := {
  header : gmap string (list string);
  code : option Z;
  body : string;
}.

Definition NewRecorder : ResponseWriter :=
  {| header := ∅; code := None; body := EmptyString |}.

Definition WriteHeader (statusCode : Z) (w : ResponseWriter) : ResponseWriter :=
  match code w with
  | None => {| header := header w; code := Some statusCode; body := body w |}
  | Some _ => w
  end.

Definition Write (b : string) (w : ResponseWriter) : ResponseWriter :=
  let w := WriteHeader StatusOK w in
  {| header := header w; code := code w; body := body w +:+ b |}.

Definition Set_ (key value : string) (w : ResponseWriter) : ResponseWriter :=
  match code w with
  | None => {| header := <[key := [value]]> (header w); code := None; body := body w |}
  | Some _ => w
  end.
End http.

Module strconv.
(** [ParseBool]: it accepts 1, t, T, TRUE, true, True, 0, f, F, FALSE,
    false, False; any other value is a syntax error, whose text is
    [syntaxError str]. *)
Definition ParseBool (syntaxError : string -> error) (str : string) : error + bool :=
  if bool_decide (str ∈ ["1"; "t"; "T"; "true"; "TRUE"; "True"]) then inr true
  else if bool_decide (str ∈ ["0"; "f"; "F"; "false"; "FALSE"; "False"]) then inr false
  else inl (syntaxError str).
End strconv.

(** go-mod-core-contracts, [common]. *)
Module common.
Definition ContentType := "Content-Type".
Definition ContentTypeJSON := "application/json".
End common.

(** ** The HTTP controller *)

Module controller.

Definition failedRequestJSON := "Unable to process request JSON".
Definition failedRecordRequestValidate :=
  "Record request failed validation: Duration and/or EventLimit must be set".
Definition failedRecordDurationValidate :=
  "Record request failed validation: Duration must be > 0 when set".
Definition failedRecordEventLimitValidate :=
  "Record request failed validation: Event Limit must be > 0 when set".
Definition failedRecording := "Recording failed".
Definition failedReplayRateValidate :=
  "Replay request failed validation: Replay Rate must be greater than 0".
Definition failedRepeatCountValidate :=
  "Replay request failed validation: Repeat Count must be equal or greater than 0".
Definition failedReplay := "Replay failed".
Definition failedDataCompression := "failed to compress recorded data of type".
Definition failedToUncompressData := "failed to uncompress data".
Definition failedImportingData := "Import data failed".
Definition noDataFound := "no recorded data found".

Definition noCompression := EmptyString.
Definition zlibCompression := "ZLIB".
Definition gzipCompression := "GZIP".
Definition contenEncodingGzip := "gzip".
Definition contentEncodingZlib := "deflate".

(** The end-of-line byte [json.Encoder.Encode] appends to each value. *)
Definition newline : string := String (Ascii.ascii_of_nat 10) EmptyString.

Notation "w |> f" := (f w) (at level 45, left associativity, only parsing).

Section handlers.
(** The DTOs of go-mod-core-contracts and the type of the request body. *)
Context {Event Device DeviceProfile Reader : Type}.

Local Abbreviation RecordedData := (dtos.RecordedData Event Device DeviceProfile).

(** *** The data manager as the controller sees it

    [interfaces.DataManager] is not among the sources: its methods are
    taken from the calls the controller makes. The index is the type of
    what the method returns. *)
Inductive DataManager : Type -> Type :=
| StartRecording (request : dtos.RecordRequest) : DataManager (option error)
| CancelRecording : DataManager (option error)
| StartReplay (request : dtos.ReplayRequest) : DataManager (option error)
| CancelReplay : DataManager (option error)
| ExportRecordedData : DataManager (RecordedData * option error)
| ImportRecordedData (data : RecordedData) (overwrite : bool) : DataManager (option error).

(** A handler runs to its end ([Done]), panics, or calls a method of the
    data manager and goes on with what the method returns. *)
Inductive handler (A : Type) : Type :=
| Done (a : A)
| Panic (msg : string)
| Invoke {R : Type} (call : DataManager R) (k : R -> handler A).
Arguments Done {A} a.
Arguments Panic {A} msg.
Arguments Invoke {A R} call k.

(** An implementation of the data manager over a state [M]; a method
    may panic. *)
Definition implementation (M : Type) : Type :=
  forall R, DataManager R -> M -> outcome (R * M).

(** The handler run against an implementation: the result and the
    state of the data manager after it. *)
Fixpoint run {M A} (dm : implementation M) (h : handler A) (m : M)
  : outcome (A * M) :=
  match h with
  | Done a => Returned (a, m)
  | Panic msg => Panicked msg
  | Invoke call k =>
      match dm _ call m with
      | Returned (r, m') => run dm (k r) m'
      | Panicked msg => Panicked msg
      end
  end.

(** The methods a handler calls, in order, against an implementation. *)
Inductive method := 
| mStartRecording | mCancelRecording | mStartReplay | mCancelReplay
| mExportRecordedData | mImportRecordedData.

Definition method_of {R} (call : DataManager R) : method :=
  match call with
  | StartRecording _ => mStartRecording
  | CancelRecording => mCancelRecording
  | StartReplay _ => mStartReplay
  | CancelReplay => mCancelReplay
  | ExportRecordedData => mExportRecordedData
  | ImportRecordedData _ _ => mImportRecordedData
  end.

Fixpoint calls {M A} (dm : implementation M) (h : handler A) (m : M)
  : list method :=
  match h with
  | Done _ | Panic _ => []
  | Invoke call k =>
      method_of call ::
      match dm _ call m with
      | Returned (r, m') => calls dm (k r) m'
      | Panicked _ => []
      end
  end.

(** What the controller takes from outside the repository:
    [encoding/json], [compress/gzip], [compress/zlib] and the error text
    of [strconv]. [Reader] is [io.ReadCloser]. *)
Class Lib := {
  (** [json.NewDecoder(r).Decode(v)] for [v] a pointer to a struct. *)
  json_Decode_RecordRequest : Reader -> error + dtos.RecordRequest;
  json_Decode_ReplayRequest : Reader -> error + dtos.ReplayRequest;
  (** [json.NewDecoder(r).Decode(&p)] for [p] a [*dtos.RecordedData]:
      the JSON value [null] sets [p] to [nil], here [None]. *)
  json_Decode_RecordedData : Reader -> error + option RecordedData;
  json_Marshal : RecordedData -> error + string;
  (** [gzip.NewReader] and [zlib.NewReader] read the header of the
      stream and fail when it is not theirs. *)
  gzip_NewReader : Reader -> error + Reader;
  zlib_NewReader : Reader -> error + Reader;
  (** Everything a [gzip.Writer] or [zlib.Writer] has written to the
      underlying writer once it is closed, for the given input. *)
  gzip_compress : string -> string;
  zlib_compress : string -> string;
  ParseBool_syntaxError : string -> error;
}.

(** The same libraries with other decompressors. *)
Definition withDecompressors (L : Lib) (gz zl : Reader -> error + Reader) : Lib := {|
  json_Decode_RecordRequest := json_Decode_RecordRequest;
  json_Decode_ReplayRequest := json_Decode_ReplayRequest;
  json_Decode_RecordedData := json_Decode_RecordedData;
  json_Marshal := json_Marshal;
  gzip_NewReader := gz;
  zlib_NewReader := zl;
  gzip_compress := gzip_compress;
  zlib_compress := zlib_compress;
  ParseBool_syntaxError := ParseBool_syntaxError;
|}.

Context {L : Lib}.
Import http.

Definition nilDereference :=
  "runtime error: invalid memory address or nil pointer dereference".

(** startRecording starts a recording session based on the values in
    the request. *)
Definition startRecording (request : Request Reader) (writer : ResponseWriter)
  : handler ResponseWriter :=
  match json_Decode_RecordRequest (Body request) with
  | inl err =>
      Done (writer |> WriteHeader StatusBadRequest
                   |> Write (failedRequestJSON +:+ ": " +:+ err))
  | inr startRequest =>
      if decide (dtos.Duration startRequest = 0 ∧ dtos.EventLimit startRequest = 0) then
        Done (writer |> WriteHeader StatusBadRequest
                     |> Write failedRecordRequestValidate)
      else if decide (dtos.Duration startRequest < 0) then
        Done (writer |> WriteHeader StatusBadRequest
                     |> Write failedRecordDurationValidate)
      else if decide (dtos.EventLimit startRequest < 0) then
        Done (writer |> WriteHeader StatusBadRequest
                     |> Write failedRecordEventLimitValidate)
      else
        Invoke (StartRecording startRequest) (fun err =>
          match err with
          | Some err =>
              Done (writer |> WriteHeader StatusInternalServerError
                           |> Write (failedRecording +:+ ": " +:+ err))
          | None => Done (writer |> WriteHeader StatusAccepted)
          end)
  end.

(** cancelRecording cancels the current recording session *)
Definition cancelRecording (request : Request Reader) (writer : ResponseWriter)
  : handler ResponseWriter :=
  Invoke CancelRecording (fun err =>
    match err with
    | Some err =>
        Done (writer |> WriteHeader StatusInternalServerError
                     |> Write ("failed to cancel recording: " +:+ err))
    | None => Done (writer |> WriteHeader StatusAccepted)
    end).

(** startReplay starts a replay session based on the values in the
    request. *)
Definition startReplay (request : Request Reader) (writer : ResponseWriter)
  : handler ResponseWriter :=
  match json_Decode_ReplayRequest (Body request) with
  | inl err =>
      Done (writer |> WriteHeader StatusBadRequest
                   |> Write (failedRequestJSON +:+ ": " +:+ err))
  | inr startRequest =>
      if SFleb (dtos.ReplayRate startRequest) (S754_zero false) then
        Done (writer |> WriteHeader StatusBadRequest
                     |> Write failedReplayRateValidate)
      else if decide (dtos.RepeatCount startRequest < 0) then
        Done (writer |> WriteHeader StatusBadRequest
                     |> Write failedRepeatCountValidate)
      else
        Invoke (StartReplay startRequest) (fun err =>
          match err with
          | Some err =>
              Done (writer |> WriteHeader StatusInternalServerError
                           |> Write (failedReplay +:+ ": " +:+ err))
          | None => Done (writer |> WriteHeader StatusAccepted)
          end)
  end.

(** cancelReplay cancels the current replay session *)
Definition cancelReplay (request : Request Reader) (writer : ResponseWriter)
  : handler ResponseWriter :=
  Invoke CancelReplay (fun err =>
    match err with
    | Some err =>
        Done (writer |> WriteHeader StatusInternalServerError
                     |> Write ("failed to cancel replay: " +:+ err))
    | None => Done (writer |> WriteHeader StatusAccepted)
    end).

(** [json.NewEncoder(w).Encode(v)]: the value is marshalled in full
    first; on an error nothing is written, otherwise the text and an
    end of line go to [w]. *)
Definition json_Encode (v : RecordedData) : error + string :=
  match json_Marshal v with
  | inl err => inl err
  | inr text => inr (text +:+ newline)
  end.

(** exportRecordedData returns the data for the last record session.

    In the two compressed cases the compressing writer is closed by a
    [defer], after the status is written: the compressed stream of what
    the encoder wrote (nothing, when it failed) is the last thing that
    reaches the response. Whether part of that stream is flushed before
    the explicit [WriteHeader(200)] does not change the response. *)
Definition exportRecordedData (request : Request Reader) (writer : ResponseWriter)
  : handler ResponseWriter :=
  Invoke ExportRecordedData (fun '(recordedData, err) =>
    match err with
    | Some err =>
        Done (writer |> WriteHeader StatusInternalServerError
                     |> Write ("failed to export recorded data: " +:+ err))
    | None =>
        let compression := Get (Query request) "compression" in
        if decide (compression = noCompression) then
          match json_Marshal recordedData with
          | inl _ =>
              Done (writer |> WriteHeader StatusInternalServerError
                           |> Write "failed to marshal recorded data")
          | inr jsonResponse =>
              Done (writer |> Set_ "Content-Type" "application/json"
                           |> WriteHeader StatusOK
                           |> Write jsonResponse)
          end
        else if decide (compression = zlibCompression) then
          let writer := writer |> Set_ "Content-Encoding" "ZLIB"
                               |> Set_ "Content-Type" "application/json" in
          match json_Encode recordedData with
          | inl err =>
              Done (writer |> WriteHeader StatusInternalServerError
                           |> Write (failedDataCompression +:+ " " +:+ zlibCompression
                                       +:+ ": " +:+ err)
                           |> Write (zlib_compress EmptyString))
          | inr encoded =>
              Done (writer |> WriteHeader StatusOK
                           |> Write (zlib_compress encoded))
          end
        else if decide (compression = gzipCompression) then
          let writer := writer |> Set_ "Content-Encoding" "GZIP"
                               |> Set_ "Content-Type" "application/json" in
          match json_Encode recordedData with
          | inl err =>
              Done (writer |> WriteHeader StatusInternalServerError
                           |> Write (failedDataCompression +:+ " " +:+ gzipCompression
                                       +:+ ": " +:+ err)
                           |> Write (gzip_compress EmptyString))
          | inr encoded =>
              Done (writer |> WriteHeader StatusOK
                           |> Write (gzip_compress encoded))
          end
        else
          Done (writer |> WriteHeader StatusInternalServerError
                       |> Write ("compression format not available: " +:+ compression))
    end).

(** importRecordedData, lines 303-313: the [overwrite] query parameter.
    [inl] carries the text of the 400 response the handler returns with. *)
Definition overwriteParam (request : Request Reader) : string + bool :=
  let queryParam := Get (Query request) "overwrite" in
  if decide (String.length queryParam = 0%nat) then inr true
  else
    match strconv.ParseBool ParseBool_syntaxError queryParam with
    | inl err => inl ("failed to parse overwrite parameter: " +:+ err)
    | inr overWriteProfilesDevices => inr overWriteProfilesDevices
    end.

(** importRecordedData, lines 315-341: the reader the payload is decoded
    from, chosen by the [Content-Encoding] header. [inl] carries the text
    of the 400 response the handler returns with. *)
Definition bodyReader (request : Request Reader) : string + Reader :=
  let compression := Get (Header request) "Content-Encoding" in
  if decide (compression = noCompression) then inr (Body request)
  else if decide (compression = contenEncodingGzip) then
    match gzip_NewReader (Body request) with
    | inl err => inl (failedToUncompressData +:+ ": " +:+ err)
    | inr reader => inr reader
    end
  else if decide (compression = contentEncodingZlib) then
    match zlib_NewReader (Body request) with
    | inl err => inl (failedToUncompressData +:+ ": " +:+ err)
    | inr reader => inr reader
    end
  else inl ("compression format " +:+ compression +:+ " not supported").

(** importRecordedData, lines 368-374: the response once the data
    manager has answered. *)
Definition importReply (writer : ResponseWriter) (err : option error)
  : handler ResponseWriter :=
  match err with
  | Some err =>
      Done (writer |> WriteHeader StatusInternalServerError
                   |> Write (failedImportingData +:+ ": " +:+ err))
  | None => Done (writer |> WriteHeader StatusAccepted)
  end.

(** importRecordedData imports data from a previously exported record
    session. Each early [return] of the source is a [Done] here; the
    payload is read through a pointer that the decoder may have set to
    [nil], in which case reading its fields panics. *)
Definition importRecordedData (request : Request Reader) (writer : ResponseWriter)
  : handler ResponseWriter :=
  let contentType := Get (Header request) common.ContentType in
  if decide (contentType ≠ common.ContentTypeJSON) then
    Done (writer |> WriteHeader StatusBadRequest
                 |> Write ("Invalid content type '" +:+ contentType
                             +:+ "'. Must be application/json"))
  else
    match overwriteParam request with
    | inl msg => Done (writer |> WriteHeader StatusBadRequest |> Write msg)
    | inr overWriteProfilesDevices =>
    match bodyReader request with
    | inl msg => Done (writer |> WriteHeader StatusBadRequest |> Write msg)
    | inr reader =>
    match json_Decode_RecordedData reader with
    | inl err =>
        Done (writer |> WriteHeader StatusBadRequest
                     |> Write (failedRequestJSON +:+ ": " +:+ err))
    | inr None => Panic nilDereference
    | inr (Some importedRecordedData) =>
        if decide (length (dtos.RecordedEvents importedRecordedData) < 1)%nat then
          Done (writer |> WriteHeader StatusBadRequest
                       |> Write (noDataFound +:+ ": no recorded events"))
        else if decide (length (dtos.Devices importedRecordedData) < 1)%nat then
          Done (writer |> WriteHeader StatusBadRequest
                       |> Write (noDataFound +:+ ": no devices"))
        else if decide (length (dtos.Profiles importedRecordedData) < 1)%nat then
          Done (writer |> WriteHeader StatusBadRequest
                       |> Write (noDataFound +:+ ": no profiles"))
        else
          Invoke (ImportRecordedData importedRecordedData overWriteProfilesDevices)
                 (importReply writer)
    end end end.
End handlers.
Arguments Lib : clear implicits.
Arguments Done {Event Device DeviceProfile A} a.
Arguments Panic {Event Device DeviceProfile A} msg.
Arguments Invoke {Event Device DeviceProfile A R} call k.
End controller.

(** ** The rest of the controller: the routes and the status handlers *)

Module routes.

Definition MethodGet := "GET".
Definition MethodPost := "POST".
Definition MethodDelete := "DELETE".

Definition failedRouteMessage (route method : string) (err : error) : error :=
  "failed to added " +:+ route +:+ " route for " +:+ method +:+ " method: " +:+ err.

(** The handlers of the controller, as the values [AddRoute] is given. *)
Inductive handlerName :=
  | startRecording | recordingStatus | cancelRecording
  | startReplay | replayStatus | cancelReplay
  | exportRecordedData | importRecordedData.

(** What [AddRoutes] asks of the application service and of the logging
    client: [AddRoute] answers with an error or [nil], [Info] with
    nothing. *)
Inductive sdk (A : Type) : Type :=
  | Return (a : A)
  | AddRoute (route : string) (handler : handlerName) (method : string)
             (k : option error -> sdk A)
  | Info (msg : string) (k : sdk A).
Arguments Return {A} a.
Arguments AddRoute {A} route handler method k.
Arguments Info {A} msg k.

(** What happened, in order: a route handed to the service with the
    answer it gave, or a line logged. *)
Inductive event :=
  | Registered (route : string) (handler : handlerName) (method : string)
               (answer : option error)
  | Logged (msg : string).

(** The program run against a service over a state [S]. *)
Fixpoint runSdk {S A : Type}
    (addRoute : string -> handlerName -> string -> S -> option error * S)
    (p : sdk A) (s : S) : A * S * list event :=
  match p with
  | Return a => (a, s, [])
  | AddRoute route handler method k =>
      let '(answer, s') := addRoute route handler method s in
      let '(a, s'', events) := runSdk addRoute (k answer) s' in
      (a, s'', Registered route handler method answer :: events)
  | Info msg k =>
      let '(a, s', events) := runSdk addRoute k s in
      (a, s', Logged msg :: events)
  end.

Section AddRoutes.
(** [common.ApiBase] of go-mod-core-contracts. *)
Context (ApiBase : string).

Definition recordRoute := ApiBase +:+ "/record".
Definition replayRoute := ApiBase +:+ "/replay".
Definition dataRoute := ApiBase +:+ "/data".

(** [if err := c.appSdk.AddRoute(route, handler, method); err != nil
      { return fmt.Errorf(failedRouteMessage, route, method, err) }],
    followed by [rest]. *)
Definition orReturn (route : string) (handler : handlerName) (method : string)
    (rest : sdk (option error)) : sdk (option error) :=
  AddRoute route handler method (fun err =>
    match err with
    | Some err => Return (Some (failedRouteMessage route method err))
    | None => rest
    end).

Definition AddRoutes : sdk (option error) :=
  orReturn recordRoute startRecording MethodPost
  (orReturn recordRoute recordingStatus MethodGet
  (orReturn recordRoute cancelRecording MethodDelete
  (orReturn replayRoute startReplay MethodPost
  (orReturn replayRoute replayStatus MethodGet
  (orReturn replayRoute cancelReplay MethodDelete
  (orReturn dataRoute exportRecordedData MethodGet
  (orReturn dataRoute importRecordedData MethodPost
  (Info "Add Record & Replay routes"
  (Return None))))))))).

(** The routes in the order [AddRoutes] hands them to the service. *)
Definition routeTable : list (string * handlerName * string) :=
  [ (recordRoute, startRecording, MethodPost);
    (recordRoute, recordingStatus, MethodGet);
    (recordRoute, cancelRecording, MethodDelete);
    (replayRoute, startReplay, MethodPost);
    (replayRoute, replayStatus, MethodGet);
    (replayRoute, cancelReplay, MethodDelete);
    (dataRoute, exportRecordedData, MethodGet);
    (dataRoute, importRecordedData, MethodPost) ].

(** A route the service accepted. *)
Definition accepted (entry : string * handlerName * string) : event :=
  Registered entry.1.1 entry.1.2 entry.2 None.
End AddRoutes.
End routes.

Module status.
Import http controller.

Section status.
(** [dtos.RecordStatus] and [dtos.ReplayStatus], their [json.Marshal],
    and the two status methods of the data manager over its state [M]. *)
Context {RecordStatusDto ReplayStatusDto M Reader : Type}.
Context (json_Marshal_RecordStatus : RecordStatusDto -> error + string).
Context (json_Marshal_ReplayStatus : ReplayStatusDto -> error + string).
Context (RecordingStatus : M -> outcome (RecordStatusDto * M)).
Context (ReplayStatus : M -> outcome (ReplayStatusDto * M)).

(** recordingStatus returns the status of the current recording session *)
Definition recordingStatus (request : Request Reader) (writer : ResponseWriter) (m : M)
  : outcome (ResponseWriter * M) :=
  match RecordingStatus m with
  | Panicked msg => Panicked msg
  | Returned (recordingStatus, m) =>
      match json_Marshal_RecordStatus recordingStatus with
      | inl err =>
          Returned (writer |> WriteHeader StatusInternalServerError
                           |> Write ("failed to marshal recording status: " +:+ err), m)
      | inr jsonResponse =>
          Returned (writer |> WriteHeader StatusOK |> Write jsonResponse, m)
      end
  end.

(** replayStatus returns the status of the current replay session *)
Definition replayStatus (request : Request Reader) (writer : ResponseWriter) (m : M)
  : outcome (ResponseWriter * M) :=
  match ReplayStatus m with
  | Panicked msg => Panicked msg
  | Returned (replayStatus, m) =>
      match json_Marshal_ReplayStatus replayStatus with
      | inl err =>
          Returned (writer |> WriteHeader StatusInternalServerError
                           |> Write ("failed to marshal replay status: " +:+ err), m)
      | inr jsonResponse =>
          Returned (writer |> WriteHeader StatusOK |> Write jsonResponse, m)
      end
  end.
End status.
End status.

(** The pipeline functions of the data manager, delivered one batch
    after the other to the same manager. *)
Module pipeline.
Import data.
Section pipeline.
Context {Event Ctx ApplicationService AppFunctionContext Any : Type}.

Inductive delivery :=
  | toCountEvents (c : AppFunctionContext) (d : Any)
  | toProcessBatchedData (c : AppFunctionContext) (d : Any).

Definition deliver (m : dataManager Event Ctx ApplicationService) (d : delivery)
  : outcome (bool * option Any * dataManager Event Ctx ApplicationService) :=
  match d with
  | toCountEvents c d => countEvents m c d
  | toProcessBatchedData c d => processBatchedData m c d
  end.

Fixpoint deliverAll (m : dataManager Event Ctx ApplicationService) (l : list delivery)
  : outcome (list (bool * option Any) * dataManager Event Ctx ApplicationService) :=
  match l with
  | [] => Returned ([], m)
  | d :: l =>
      match deliver m d with
      | Panicked msg => Panicked msg
      | Returned (r, m') =>
          match deliverAll m' l with
          | Panicked msg => Panicked msg
          | Returned (rs, m'') => Returned (r :: rs, m'')
          end
      end
  end.
End pipeline.
End pipeline.

(** ** A small instance of the libraries

    Used to run the handlers on concrete requests. A request body is
    given by what it holds: the JSON text of a value, that text
    compressed, or bytes that are no JSON at all. *)
Module sample.
Import controller.

Inductive body :=
| RecordJSON (r : dtos.RecordRequest)
| ReplayJSON (r : dtos.ReplayRequest)
| DataJSON (d : dtos.RecordedData nat string string)
| NullJSON
| Garbage
| Gzipped (b : body)
| Zlibbed (b : body).

Definition syntax : error := "invalid character".

#[local] Instance lib : Lib nat string string body := {|
  json_Decode_RecordRequest b :=
    match b with RecordJSON r => inr r | _ => inl syntax end;
  json_Decode_ReplayRequest b :=
    match b with ReplayJSON r => inr r | _ => inl syntax end;
  json_Decode_RecordedData b :=
    match b with
    | DataJSON d => inr (Some d)
    | NullJSON => inr None
    | _ => inl syntax
    end;
  json_Marshal d := inr "{}";
  gzip_NewReader b :=
    match b with Gzipped b => inr b | _ => inl "gzip: invalid header" end;
  zlib_NewReader b :=
    match b with Zlibbed b => inr b | _ => inl "zlib: invalid header" end;
  gzip_compress s := "gzip:" +:+ s;
  zlib_compress s := "zlib:" +:+ s;
  ParseBool_syntaxError s := "strconv.ParseBool: parsing " +:+ s +:+ ": invalid syntax";
|}.

Definition jsonHeader : gmap string (list string) :=
  {[ "Content-Type" := ["application/json"] ]}.

Definition post (h q : gmap string (list string)) (b : body) : http.Request body :=
  {| http.Header := h; http.Query := q; http.Body := b |}.

Definition recording : dtos.RecordedData nat string string :=
  {| dtos.RecordedEvents := [7%nat]; dtos.Devices := ["d1"]; dtos.Profiles := ["p1"] |}.

Definition noEvents : dtos.RecordedData nat string string :=
  {| dtos.RecordedEvents := []; dtos.Devices := ["d1"]; dtos.Profiles := ["p1"] |}.

(** A data manager that holds one optional recording and accepts
    everything. *)
Definition store : implementation (option (dtos.RecordedData nat string string)) :=
  fun R call m =>
    match call in DataManager R return outcome (R * _) with
    | StartRecording _ => Returned (None, m)
    | CancelRecording => Returned (None, m)
    | StartReplay _ => Returned (None, m)
    | CancelReplay => Returned (None, m)
    | ExportRecordedData =>
        match m with
        | Some d => Returned ((d, None), m)
        | None => Returned ((noEvents, Some "no recorded data present"), m)
        end
    | ImportRecordedData d _ => Returned (None, Some d)
    end.
End sample.

(** Bodies for the small instance, from the bytes of an exported
    recording: the JSON text, and its two compressed forms. *)
Module sample_bytes.
Import controller sample.

Definition exported : string := "{}".

Definition asReader (bytes : string) : body :=
  if decide (bytes = "zlib:" +:+ (exported +:+ newline))
  then Zlibbed (DataJSON recording)
  else if decide (bytes = "gzip:" +:+ (exported +:+ newline))
  then Gzipped (DataJSON recording)
  else if decide (bytes = exported) then DataJSON recording
  else if decide (bytes = exported +:+ newline) then DataJSON recording
  else Garbage.

(** A JSON body announced as [gzip]. *)
Definition mislabelled : http.Request body :=
  post (<[ "Content-Encoding" := ["gzip"] ]> jsonHeader) ∅ (DataJSON recording).

(** The answer to an export with [compression=ZLIB] of the stored
    recording. *)
Definition zlibAnswer : http.ResponseWriter :=
  match run store (exportRecordedData (L:=lib)
                     (post ∅ {[ "compression" := ["ZLIB"] ]} Garbage)
                     http.NewRecorder) (Some recording) with
  | Returned (w, _) => w
  | Panicked _ => http.NewRecorder
  end.

(** The two export requests, and an answer posted back with its own
    headers and body. *)
Definition plainExport : http.Request body := post ∅ ∅ Garbage.

Definition zlibExport : http.Request body :=
  post ∅ {[ "compression" := ["ZLIB"] ]} Garbage.

Definition postedBack (w : http.ResponseWriter) : http.Request body :=
  post (http.header w) ∅ (asReader (http.body w)).

(** A gzip stream of the recording, announced as [gzip], and the same
    stream with no [Content-Encoding]. *)
Definition gzipLabelled : http.Request body :=
  post (<[ "Content-Encoding" := ["gzip"] ]> jsonHeader) ∅
    (Gzipped (DataJSON recording)).

Definition gzipUnlabelled : http.Request body :=
  post jsonHeader ∅ (Gzipped (DataJSON recording)).

(** Exported bytes posted back as [deflate]. *)
Definition deflated (bytes : string) : http.Request body :=
  post (<[ "Content-Encoding" := ["deflate"] ]> jsonHeader) ∅ (asReader bytes).
End sample_bytes.

(** What [importRecordedData] does once it holds the reader to decode
    from (part_000, lines 342-375): decode the payload from that reader,
    check its three lists, call the data manager. *)
Module import_path.
Import http controller.
Section import_path.
Context {Event Device DeviceProfile Reader : Type}.
Context {L : Lib Event Device DeviceProfile Reader}.

Definition importFrom (writer : ResponseWriter) (overWriteProfilesDevices : bool)
    (reader : Reader) : handler (Event:=Event) (Device:=Device)
                          (DeviceProfile:=DeviceProfile) ResponseWriter :=
  match json_Decode_RecordedData reader with
  | inl err =>
      Done (writer |> WriteHeader StatusBadRequest
                   |> Write (failedRequestJSON +:+ ": " +:+ err))
  | inr None => Panic nilDereference
  | inr (Some importedRecordedData) =>
      if decide (length (dtos.RecordedEvents importedRecordedData) < 1)%nat then
        Done (writer |> WriteHeader StatusBadRequest
                     |> Write (noDataFound +:+ ": no recorded events"))
      else if decide (length (dtos.Devices importedRecordedData) < 1)%nat then
        Done (writer |> WriteHeader StatusBadRequest
                     |> Write (noDataFound +:+ ": no devices"))
      else if decide (length (dtos.Profiles importedRecordedData) < 1)%nat then
        Done (writer |> WriteHeader StatusBadRequest
                     |> Write (noDataFound +:+ ": no profiles"))
      else
        Invoke (ImportRecordedData importedRecordedData overWriteProfilesDevices)
               (importReply writer)
  end.
End import_path.
End import_path.

(** * Properties *)

(** ** The data manager *)

Section manager.
Context {Event Ctx ApplicationService : Type}.
Import gochan data.


(** C1. Whatever the manager and the request, [StartRecording] and
    [StartReplay] panic with "implement me": no start attempt returns,
    so none returns an error, and a second attempt on the same manager
    is never reached. *)
Theorem start_attempts_panic
    (m : dataManager Event Ctx ApplicationService)
    (record : dtos.RecordRequest) (replay : dtos.ReplayRequest)
    (first second : start) :
  StartRecording m record = Panicked "implement me"
  ∧ StartReplay m replay = Panicked "implement me"
  ∧ (∀ r, StartRecording m record ≠ Returned r)
  ∧ (∀ r, StartReplay m replay ≠ Returned r)
  ∧ attempts m [first; second] = Panicked "implement me".
Proof.
  repeat split; try discriminate.
  destruct first; reflexivity.
Qed.
End manager.

(** ** The response writer *)

Section writer.
Import http.

Lemma code_WriteHeader statusCode w :
  code w = None -> code (WriteHeader statusCode w) = Some statusCode.
Proof. unfold WriteHeader. intros ->. reflexivity. Qed.

Lemma code_Write_committed b w statusCode :
  code w = Some statusCode -> code (Write b w) = Some statusCode.
Proof. unfold Write, WriteHeader. intros Hc. rewrite Hc. simpl. exact Hc. Qed.

Lemma code_respond statusCode b w :
  code w = None -> code (Write b (WriteHeader statusCode w)) = Some statusCode.
Proof. intros Hw. apply code_Write_committed, code_WriteHeader, Hw. Qed.

Lemma body_respond statusCode b w :
  code w = None -> body (Write b (WriteHeader statusCode w)) = body w +:+ b.
Proof. unfold Write, WriteHeader. intros ->. reflexivity. Qed.

Lemma code_Set_ key value w : code (Set_ key value w) = code w.
Proof. unfold Set_. destruct (code w) eqn:E; [assumption|reflexivity]. Qed.

Lemma body_Set_ key value w : body (Set_ key value w) = body w.
Proof. unfold Set_. destruct (code w); reflexivity. Qed.

Lemma header_Set_ key value w :
  code w = None -> header (Set_ key value w) = <[key := [value]]> (header w).
Proof. unfold Set_. intros ->. reflexivity. Qed.

Lemma header_WriteHeader statusCode w : header (WriteHeader statusCode w) = header w.
Proof. unfold WriteHeader. destruct (code w); reflexivity. Qed.

Lemma header_Write b w : header (Write b w) = header w.
Proof. unfold Write. simpl. apply header_WriteHeader. Qed.

Lemma body_WriteHeader statusCode w : body (WriteHeader statusCode w) = body w.
Proof. unfold WriteHeader. destruct (code w); reflexivity. Qed.

Lemma body_Write b w : body (Write b w) = body w +:+ b.
Proof. unfold Write. simpl. rewrite body_WriteHeader. reflexivity. Qed.
End writer.

Create HintDb writer.
#[local] Hint Resolve code_WriteHeader code_respond : writer.

(** ** The controller *)

(** A positive rate is not at most zero. *)
Lemma SFltb_zero_not_SFleb (rate : spec_float) :
  SFltb (S754_zero false) rate = true -> SFleb rate (S754_zero false) = false.
Proof.
  destruct rate as [s|s| |s m e]; try destruct s; cbn; congruence.
Qed.

Section controller.
Context {Event Device DeviceProfile Reader : Type}.
Context {L : controller.Lib Event Device DeviceProfile Reader}.
Import http controller.

Implicit Types (request : Request Reader) (writer w : ResponseWriter).

(** C5. For a [POST /record] whose body decodes to a request: when
    duration and event limit are both zero, or one of them is negative,
    the handler ends with status 400 without calling the data manager;
    when neither is negative and one of them is positive, it calls
    [StartRecording] with the decoded request, and answers 202 when that
    returns no error and 500 when it returns one. *)
Theorem startRecording_validates_request request writer startRequest :
  code writer = None ->
  json_Decode_RecordRequest (Body request) = inr startRequest ->
  ((dtos.Duration startRequest = 0 ∧ dtos.EventLimit startRequest = 0)
   ∨ dtos.Duration startRequest < 0 ∨ dtos.EventLimit startRequest < 0 ->
   ∃ w, startRecording request writer = Done w
      ∧ code w = Some StatusBadRequest)
  ∧ (0 <= dtos.Duration startRequest -> 0 <= dtos.EventLimit startRequest ->
     0 < dtos.Duration startRequest ∨ 0 < dtos.EventLimit startRequest ->
     ∃ k, startRecording request writer = Invoke (StartRecording startRequest) k
      ∧ (∃ w, k None = Done w ∧ code w = Some StatusAccepted)
      ∧ (∀ err, ∃ w, k (Some err) = Done w
                   ∧ code w = Some StatusInternalServerError)).
Proof.
  intros Hw Hdec. unfold startRecording. rewrite Hdec. split.
  - intros Hbad. repeat case_decide; try lia; eauto with writer.
  - intros Hd Hn Hpos. repeat case_decide; try lia.
    eexists. split; [reflexivity|]. split.
    + eauto with writer.
    + intros err. eauto with writer.
Qed.

(** C6. For a [POST /replay] whose body decodes to a request: when the
    replay rate is at most zero or the repeat count is negative, the
    handler ends with status 400 without calling the data manager; when
    the rate is above zero and the count is not negative, it calls
    [StartReplay] with the decoded request, and answers 202 when that
    returns no error and 500 when it returns one. *)
Theorem startReplay_validates_request request writer startRequest :
  code writer = None ->
  json_Decode_ReplayRequest (Body request) = inr startRequest ->
  (SFleb (dtos.ReplayRate startRequest) (S754_zero false) = true
   ∨ dtos.RepeatCount startRequest < 0 ->
   ∃ w, startReplay request writer = Done w
      ∧ code w = Some StatusBadRequest)
  ∧ (SFltb (S754_zero false) (dtos.ReplayRate startRequest) = true ->
     0 <= dtos.RepeatCount startRequest ->
     ∃ k, startReplay request writer = Invoke (StartReplay startRequest) k
      ∧ (∃ w, k None = Done w ∧ code w = Some StatusAccepted)
      ∧ (∀ err, ∃ w, k (Some err) = Done w
                   ∧ code w = Some StatusInternalServerError)).
Proof.
  intros Hw Hdec. unfold startReplay. rewrite Hdec. split.
  - intros [Hrate|Hcount].
    + rewrite Hrate. eauto with writer.
    + destruct (SFleb _ _); [eauto with writer|].
      case_decide; [|lia]. eauto with writer.
  - intros Hrate Hcount. rewrite (SFltb_zero_not_SFleb _ Hrate).
    case_decide; [lia|].
    eexists. split; [reflexivity|]. split.
    + eauto with writer.
    + intros err. eauto with writer.
Qed.

(** The handler past the check of the content type. *)
Lemma importRecordedData_json request writer :
  Get (Header request) common.ContentType = common.ContentTypeJSON ->
  importRecordedData request writer =
    match overwriteParam request with
    | inl msg => Done (writer |> WriteHeader StatusBadRequest |> Write msg)
    | inr overwrite =>
    match bodyReader request with
    | inl msg => Done (writer |> WriteHeader StatusBadRequest |> Write msg)
    | inr reader =>
    match json_Decode_RecordedData reader with
    | inl err =>
        Done (writer |> WriteHeader StatusBadRequest
                     |> Write (failedRequestJSON +:+ ": " +:+ err))
    | inr None => Panic nilDereference
    | inr (Some data) =>
        match dtos.RecordedEvents data, dtos.Devices data, dtos.Profiles data with
        | [], _, _ =>
            Done (writer |> WriteHeader StatusBadRequest
                         |> Write (noDataFound +:+ ": no recorded events"))
        | _ :: _, [], _ =>
            Done (writer |> WriteHeader StatusBadRequest
                         |> Write (noDataFound +:+ ": no devices"))
        | _ :: _, _ :: _, [] =>
            Done (writer |> WriteHeader StatusBadRequest
                         |> Write (noDataFound +:+ ": no profiles"))
        | _ :: _, _ :: _, _ :: _ =>
            Invoke (ImportRecordedData data overwrite) (importReply writer)
        end
    end end end.
Proof.
  intros Hct. unfold importRecordedData.
  rewrite decide_False by (intros Hne; apply Hne, Hct).
  destruct (overwriteParam request) as [msg|overwrite]; [reflexivity|].
  destruct (bodyReader request) as [msg|reader]; [reflexivity|].
  destruct (json_Decode_RecordedData reader) as [err|[data|]]; try reflexivity.
  destruct (dtos.RecordedEvents data), (dtos.Devices data), (dtos.Profiles data);
    simpl; repeat case_decide; (reflexivity || lia).
Qed.

(** A [POST /data] that gets as far as a payload decoded to a value: when
    the payload has no recorded events, or no devices, or no profiles,
    the handler ends with status 400 and the message of the first check
    that fails, in the order events, devices, profiles. It does so
    without calling the data manager: run against any implementation,
    it makes no call and leaves the state of the data manager as it
    was. *)
Theorem importRecordedData_rejects_empty_payload
    request writer overwrite reader data :
  code writer = None ->
  Get (Header request) common.ContentType = common.ContentTypeJSON ->
  overwriteParam request = inr overwrite ->
  bodyReader request = inr reader ->
  json_Decode_RecordedData reader = inr (Some data) ->
  dtos.RecordedEvents data = [] ∨ dtos.Devices data = [] ∨ dtos.Profiles data = [] ->
  ∃ w, importRecordedData request writer = Done w
     ∧ code w = Some StatusBadRequest
     ∧ body w = body writer +:+
         (noDataFound +:+
            match dtos.RecordedEvents data, dtos.Devices data with
            | [], _ => ": no recorded events"
            | _ :: _, [] => ": no devices"
            | _ :: _, _ :: _ => ": no profiles"
            end)
     ∧ ∀ M (dm : implementation M) (m : M),
         run dm (importRecordedData request writer) m = Returned (w, m)
         ∧ calls dm (importRecordedData request writer) m = [].
Proof.
  intros Hw Hct How Hreader Hdec Hempty.
  rewrite (importRecordedData_json _ _ Hct), How, Hreader, Hdec.
  destruct (dtos.RecordedEvents data) as [|e es], (dtos.Devices data) as [|d ds],
    (dtos.Profiles data) as [|p ps];
    try (destruct Hempty as [?|[?|?]]; discriminate);
    (eexists; split; [reflexivity|]; split; [apply code_respond, Hw|];
     split; [apply body_respond, Hw|]; intros M dm m; split; reflexivity).
Qed.

(** C9. When the [Content-Type] header of a [POST /data] is not
    [application/json], the handler ends with status 400 and the message
    about the content type, without calling the data manager. The
    response is a function of that header alone: any request with the
    same content type, whatever its query, its other headers and its
    body, gets the same response, under any decoders and
    decompressors. *)
Theorem importRecordedData_content_type_first request writer :
  Get (Header request) common.ContentType ≠ common.ContentTypeJSON ->
  importRecordedData request writer =
    Done (writer |> WriteHeader StatusBadRequest
                 |> Write ("Invalid content type '"
                             +:+ Get (Header request) common.ContentType
                             +:+ "'. Must be application/json"))
  ∧ (code writer = None ->
     ∃ w, importRecordedData request writer = Done w
        ∧ code w = Some StatusBadRequest)
  ∧ ∀ (L' : Lib Event Device DeviceProfile Reader) request',
      Get (Header request') common.ContentType
        = Get (Header request) common.ContentType ->
      importRecordedData (L:=L') request' writer
        = importRecordedData (L:=L) request writer.
Proof.
  intros Hct.
  assert (Hall : ∀ (L' : Lib Event Device DeviceProfile Reader) request',
             Get (Header request') common.ContentType
               = Get (Header request) common.ContentType ->
             importRecordedData (L:=L') request' writer =
               Done (writer |> WriteHeader StatusBadRequest
                            |> Write ("Invalid content type '"
                                        +:+ Get (Header request) common.ContentType
                                        +:+ "'. Must be application/json"))).
  { intros L' request' Hsame. unfold importRecordedData.
    rewrite Hsame, decide_True by exact Hct. reflexivity. }
  split; [apply Hall; reflexivity|]. split.
  - intros Hw. eexists. split; [apply Hall; reflexivity|]. apply code_respond, Hw.
  - intros L' request' Hsame. rewrite (Hall L' request' Hsame).
    symmetry. apply Hall. reflexivity.
Qed.

(** An export with a compression token that is none of the three known
    ones answers 500, whatever the data manager returned. *)
Lemma exportRecordedData_unknown_token request writer :
  code writer = None ->
  Get (Query request) "compression" ≠ noCompression ->
  Get (Query request) "compression" ≠ zlibCompression ->
  Get (Query request) "compression" ≠ gzipCompression ->
  ∃ k, exportRecordedData request writer = Invoke ExportRecordedData k
     ∧ ∀ r, ∃ w, k r = Done w ∧ code w = Some StatusInternalServerError.
Proof.
  intros Hw H0 Hz Hg. eexists. split; [reflexivity|].
  intros [data [err|]]; [eauto with writer|].
  rewrite !decide_False by assumption. eauto with writer.
Qed.

(** C10. When the [Content-Encoding] header of a [POST /data] is none of
    the empty string, [gzip] and [deflate], the handler ends with status
    400 without calling the data manager; when the content type and the
    [overwrite] parameter were in order the message is "compression
    format ... not supported". The body plays no part: a request with
    the same headers and query and any other body gets the same
    response. An export with an unknown compression token answers 500
    instead. *)
Theorem importRecordedData_unknown_encoding request writer :
  code writer = None ->
  Get (Header request) "Content-Encoding" ≠ noCompression ->
  Get (Header request) "Content-Encoding" ≠ contenEncodingGzip ->
  Get (Header request) "Content-Encoding" ≠ contentEncodingZlib ->
  (∃ w, importRecordedData request writer = Done w
      ∧ code w = Some StatusBadRequest)
  ∧ (Get (Header request) common.ContentType = common.ContentTypeJSON ->
     ∀ overwrite, overwriteParam request = inr overwrite ->
     importRecordedData request writer =
       Done (writer |> WriteHeader StatusBadRequest
                    |> Write ("compression format "
                                +:+ Get (Header request) "Content-Encoding"
                                +:+ " not supported")))
  ∧ (∀ request', Header request' = Header request ->
                 Query request' = Query request ->
     importRecordedData request' writer = importRecordedData request writer)
  ∧ (∀ request' : Request Reader,
       Get (Query request') "compression" ≠ noCompression ->
       Get (Query request') "compression" ≠ zlibCompression ->
       Get (Query request') "compression" ≠ gzipCompression ->
       ∃ k, exportRecordedData request' writer = Invoke ExportRecordedData k
          ∧ ∀ r, ∃ w, k r = Done w ∧ code w = Some StatusInternalServerError).
Proof.
  intros Hw H0 Hg Hz.
  assert (Hreader : ∀ request', Header request' = Header request ->
            bodyReader request' =
              inl ("compression format " +:+ Get (Header request) "Content-Encoding"
                     +:+ " not supported")).
  { intros request' Hh. unfold bodyReader. rewrite Hh.
    rewrite !decide_False by assumption. reflexivity. }
  split; [|split; [|split]].
  - unfold importRecordedData. case_decide; [eauto with writer|].
    destruct (overwriteParam request); [eauto with writer|].
    rewrite (Hreader request eq_refl). eauto with writer.
  - intros Hct overwrite How.
    rewrite (importRecordedData_json _ _ Hct), How, (Hreader request eq_refl).
    reflexivity.
  - intros request' Hh Hq. unfold importRecordedData, overwriteParam.
    rewrite (Hreader request eq_refl), (Hreader request' Hh), Hh, Hq. reflexivity.
  - intros request'. apply exportRecordedData_unknown_token, Hw.
Qed.

(** The handler reads the decompressors through [bodyReader] only. *)
Lemma importRecordedData_bodyReader (L' : Lib Event Device DeviceProfile Reader)
    request writer :
  json_Decode_RecordedData (Lib:=L') = json_Decode_RecordedData (Lib:=L) ->
  ParseBool_syntaxError (Lib:=L') = ParseBool_syntaxError (Lib:=L) ->
  bodyReader (L:=L') request = bodyReader (L:=L) request ->
  importRecordedData (L:=L') request writer = importRecordedData (L:=L) request writer.
Proof.
  intros Hdec Hparse Hreader. unfold importRecordedData, overwriteParam.
  rewrite Hdec, Hparse, Hreader. reflexivity.
Qed.

(** With a complete payload read from it, [importFrom] hands that
    payload to the data manager; with a reader the decoder fails on, it
    answers 400. *)
Lemma importFrom_decoded writer overwrite (reader : Reader) :
  (∀ data, json_Decode_RecordedData reader = inr (Some data) ->
     dtos.RecordedEvents data ≠ [] -> dtos.Devices data ≠ [] ->
     dtos.Profiles data ≠ [] ->
     import_path.importFrom writer overwrite reader
       = Invoke (ImportRecordedData data overwrite) (importReply writer))
  ∧ (∀ err, json_Decode_RecordedData reader = inl err ->
     import_path.importFrom writer overwrite reader
       = Done (writer |> WriteHeader StatusBadRequest
                      |> Write (failedRequestJSON +:+ ": " +:+ err))).
Proof.
  unfold import_path.importFrom. split.
  - intros data -> He Hd Hp.
    destruct (dtos.RecordedEvents data), (dtos.Devices data), (dtos.Profiles data);
      try congruence.
    rewrite !decide_False by (simpl; lia). reflexivity.
  - intros err ->. reflexivity.
Qed.

(** C4. What a [POST /data] decodes is chosen by the [Content-Encoding]
    header alone. With a JSON content type and an accepted [overwrite]
    value, the handler decodes its payload from the body as it is for
    the empty string, from [gzip.NewReader] of the body for [gzip], from
    [zlib.NewReader] of the body for [deflate], and goes on from that
    reader (a complete payload read from it is the one handed to the
    data manager); when the named decompressor refuses the body it
    answers 400, and it never tries another one. The decompressors the
    header does not name are not consulted: replacing them by any
    others leaves the run of the handler unchanged, whatever the body
    holds. The tokens of export, [GZIP] and [ZLIB], are refused by
    import as unsupported, and the tokens of import, [gzip] and
    [deflate], make an export answer 500. *)
Theorem importRecordedData_decompression_by_header request writer :
  (Get (Header request) common.ContentType = common.ContentTypeJSON ->
   ∀ overwrite, overwriteParam request = inr overwrite ->
     (Get (Header request) "Content-Encoding" = EmptyString ->
        importRecordedData request writer
          = import_path.importFrom writer overwrite (Body request))
     ∧ (Get (Header request) "Content-Encoding" = "gzip" ->
        importRecordedData request writer
          = match gzip_NewReader (Body request) with
            | inl err =>
                Done (writer |> WriteHeader StatusBadRequest
                             |> Write (failedToUncompressData +:+ ": " +:+ err))
            | inr reader => import_path.importFrom writer overwrite reader
            end)
     ∧ (Get (Header request) "Content-Encoding" = "deflate" ->
        importRecordedData request writer
          = match zlib_NewReader (Body request) with
            | inl err =>
                Done (writer |> WriteHeader StatusBadRequest
                             |> Write (failedToUncompressData +:+ ": " +:+ err))
            | inr reader => import_path.importFrom writer overwrite reader
            end)
     ∧ (Get (Header request) "Content-Encoding" = "GZIP"
        ∨ Get (Header request) "Content-Encoding" = "ZLIB" ->
        importRecordedData request writer
          = Done (writer |> WriteHeader StatusBadRequest
                         |> Write ("compression format "
                                     +:+ Get (Header request) "Content-Encoding"
                                     +:+ " not supported")))
     ∧ (∀ (reader : Reader) data,
          json_Decode_RecordedData reader = inr (Some data) ->
          dtos.RecordedEvents data ≠ [] -> dtos.Devices data ≠ [] ->
          dtos.Profiles data ≠ [] ->
          import_path.importFrom writer overwrite reader
            = Invoke (ImportRecordedData data overwrite) (importReply writer))
     ∧ (∀ (reader : Reader) err,
          json_Decode_RecordedData reader = inl err ->
          import_path.importFrom writer overwrite reader
            = Done (writer |> WriteHeader StatusBadRequest
                           |> Write (failedRequestJSON +:+ ": " +:+ err))))
  ∧ (Get (Header request) "Content-Encoding" = EmptyString ->
     bodyReader request = inr (Body request)
     ∧ ∀ gz zl, importRecordedData (L:=withDecompressors L gz zl) request writer
                = importRecordedData request writer)
  ∧ (Get (Header request) "Content-Encoding" = "gzip" ->
     bodyReader request =
       match gzip_NewReader (Body request) with
       | inl err => inl (failedToUncompressData +:+ ": " +:+ err)
       | inr reader => inr reader
       end
     ∧ ∀ zl, importRecordedData (L:=withDecompressors L gzip_NewReader zl) request writer
             = importRecordedData request writer)
  ∧ (Get (Header request) "Content-Encoding" = "deflate" ->
     bodyReader request =
       match zlib_NewReader (Body request) with
       | inl err => inl (failedToUncompressData +:+ ": " +:+ err)
       | inr reader => inr reader
       end
     ∧ ∀ gz, importRecordedData (L:=withDecompressors L gz zlib_NewReader) request writer
             = importRecordedData request writer)
  ∧ (Get (Header request) "Content-Encoding" = "GZIP"
     ∨ Get (Header request) "Content-Encoding" = "ZLIB" ->
     bodyReader request =
       inl ("compression format " +:+ Get (Header request) "Content-Encoding"
              +:+ " not supported"))
  ∧ (code writer = None ->
     Get (Query request) "compression" = "gzip"
     ∨ Get (Query request) "compression" = "deflate" ->
     ∃ k, exportRecordedData request writer = Invoke ExportRecordedData k
        ∧ ∀ r, ∃ w, k r = Done w ∧ code w = Some StatusInternalServerError).
Proof.
  split; [|split; [|split; [|split; [|split]]]].
  - intros Hct overwrite How.
    assert (Hstep : importRecordedData request writer =
              match bodyReader request with
              | inl msg => Done (writer |> WriteHeader StatusBadRequest |> Write msg)
              | inr reader => import_path.importFrom writer overwrite reader
              end).
    { unfold importRecordedData, import_path.importFrom.
      rewrite decide_False by (intros Hne; apply Hne, Hct).
      rewrite How. reflexivity. }
    rewrite Hstep.
    split; [|split; [|split; [|split; [|split]]]].
    + intros Hce. unfold bodyReader. rewrite Hce. reflexivity.
    + intros Hce. unfold bodyReader. rewrite Hce.
      rewrite decide_False by discriminate. rewrite decide_True by reflexivity.
      destruct (gzip_NewReader (Body request)); reflexivity.
    + intros Hce. unfold bodyReader. rewrite Hce.
      rewrite !decide_False by discriminate. rewrite decide_True by reflexivity.
      destruct (zlib_NewReader (Body request)); reflexivity.
    + intros [Hce|Hce]; unfold bodyReader; rewrite Hce; reflexivity.
    + intros reader. apply importFrom_decoded.
    + intros reader. apply importFrom_decoded.
  - intros Hce. split.
    + unfold bodyReader. rewrite Hce. reflexivity.
    + intros gz zl. apply importRecordedData_bodyReader; try reflexivity.
      unfold bodyReader. rewrite Hce. reflexivity.
  - intros Hce. split.
    + unfold bodyReader. rewrite Hce. reflexivity.
    + intros zl. apply importRecordedData_bodyReader; try reflexivity.
      unfold bodyReader. rewrite Hce. reflexivity.
  - intros Hce. split.
    + unfold bodyReader. rewrite Hce. reflexivity.
    + intros gz. apply importRecordedData_bodyReader; try reflexivity.
      unfold bodyReader. rewrite Hce. reflexivity.
  - intros [Hce|Hce]; unfold bodyReader; rewrite Hce; reflexivity.
  - intros Hw Htoken.
    apply exportRecordedData_unknown_token; [exact Hw|..];
      destruct Htoken as [Ht|Ht]; rewrite Ht; discriminate.
Qed.

(** [ParseBool] does not accept the empty string. *)
Lemma ParseBool_inr_nonempty syntaxError value flag :
  strconv.ParseBool syntaxError value = inr flag -> String.length value ≠ 0%nat.
Proof.
  destruct value; [discriminate|]. discriminate.
Qed.

(** An [overwrite] parameter that is present with an empty value counts
    as absent. *)
Lemma overwriteParam_empty request :
  Get (Query request) "overwrite" = EmptyString -> overwriteParam request = inr true.
Proof. unfold overwriteParam. intros ->. reflexivity. Qed.

(** C8. For a [POST /data] that reaches the data manager (content type,
    encoding and payload in order): when the query has no [overwrite]
    parameter, [ImportRecordedData] is called with the flag [true]; when
    it has one, the flag is what [strconv.ParseBool] makes of its
    value. *)
Theorem importRecordedData_overwrite_flag request writer reader data :
  Get (Header request) common.ContentType = common.ContentTypeJSON ->
  bodyReader request = inr reader ->
  json_Decode_RecordedData reader = inr (Some data) ->
  dtos.RecordedEvents data ≠ [] ->
  dtos.Devices data ≠ [] ->
  dtos.Profiles data ≠ [] ->
  (Query request !! "overwrite" = None ->
   importRecordedData request writer
     = Invoke (ImportRecordedData data true) (importReply writer))
  ∧ (∀ value values flag,
       Query request !! "overwrite" = Some (value :: values) ->
       strconv.ParseBool ParseBool_syntaxError value = inr flag ->
       importRecordedData request writer
         = Invoke (ImportRecordedData data flag) (importReply writer)).
Proof.
  intros Hct Hreader Hdec He Hd Hp.
  assert (Hgo : ∀ flag, overwriteParam request = inr flag ->
            importRecordedData request writer
              = Invoke (ImportRecordedData data flag) (importReply writer)).
  { intros flag How.
    rewrite (importRecordedData_json _ _ Hct), How, Hreader, Hdec.
    destruct (dtos.RecordedEvents data), (dtos.Devices data), (dtos.Profiles data);
      congruence. }
  split.
  - intros Habsent. apply Hgo, overwriteParam_empty.
    unfold Get. rewrite Habsent. reflexivity.
  - intros value values flag Hpresent Hparse. apply Hgo.
    unfold overwriteParam, Get. rewrite Hpresent.
    rewrite decide_False by (eapply ParseBool_inr_nonempty, Hparse).
    rewrite Hparse. reflexivity.
Qed.

(** The headers of a compressed export: set before anything is written,
    kept by what is written afterwards. *)
Lemma export_headers writer encoding w :
  code writer = None ->
  header w = header (writer |> Set_ "Content-Encoding" encoding
                            |> Set_ "Content-Type" "application/json") ->
  header w !! "Content-Encoding" = Some [encoding]
  ∧ header w !! "Content-Type" = Some ["application/json"].
Proof.
  intros Hw ->.
  rewrite header_Set_ by (rewrite code_Set_; exact Hw).
  rewrite header_Set_ by exact Hw.
  split.
  - rewrite lookup_insert_ne by discriminate. apply lookup_insert_eq.
  - apply lookup_insert_eq.
Qed.

(** C3. [GET /data] asks the data manager for the recorded data first.
    When that returns an error the answer is 500. Otherwise the
    [compression] token decides: with [ZLIB] (resp. [GZIP]) the response
    carries [Content-Encoding: ZLIB] (resp. [GZIP]) and
    [Content-Type: application/json], and, when the data marshals to
    JSON, status 200 and as body the zlib (resp. gzip) stream of the JSON
    text the encoder writes; when marshalling fails the status is 500.
    With the empty token the body is the JSON text itself, status 200.
    Any other token answers 500. *)
Theorem exportRecordedData_compression request writer :
  code writer = None ->
  ∃ k, exportRecordedData request writer = Invoke ExportRecordedData k
   ∧ (∀ data err, ∃ w, k (data, Some err) = Done w
                     ∧ code w = Some StatusInternalServerError)
   ∧ (Get (Query request) "compression" = "ZLIB" ->
      ∀ data, ∃ w, k (data, None) = Done w
        ∧ header w !! "Content-Encoding" = Some ["ZLIB"]
        ∧ header w !! "Content-Type" = Some ["application/json"]
        ∧ (∀ text, json_Marshal data = inr text ->
             code w = Some StatusOK
             ∧ body w = body writer +:+ zlib_compress (text +:+ newline))
        ∧ (∀ err, json_Marshal data = inl err ->
             code w = Some StatusInternalServerError))
   ∧ (Get (Query request) "compression" = "GZIP" ->
      ∀ data, ∃ w, k (data, None) = Done w
        ∧ header w !! "Content-Encoding" = Some ["GZIP"]
        ∧ header w !! "Content-Type" = Some ["application/json"]
        ∧ (∀ text, json_Marshal data = inr text ->
             code w = Some StatusOK
             ∧ body w = body writer +:+ gzip_compress (text +:+ newline))
        ∧ (∀ err, json_Marshal data = inl err ->
             code w = Some StatusInternalServerError))
   ∧ (Get (Query request) "compression" = EmptyString ->
      ∀ data text, json_Marshal data = inr text ->
      ∃ w, k (data, None) = Done w
        ∧ code w = Some StatusOK
        ∧ body w = body writer +:+ text
        ∧ header w !! "Content-Encoding" = header writer !! "Content-Encoding"
        ∧ header w !! "Content-Type" = Some ["application/json"])
   ∧ (Get (Query request) "compression" ≠ EmptyString ->
      Get (Query request) "compression" ≠ "ZLIB" ->
      Get (Query request) "compression" ≠ "GZIP" ->
      ∀ data err, ∃ w, k (data, err) = Done w
                     ∧ code w = Some StatusInternalServerError).
Proof.
  intros Hw. eexists. split; [reflexivity|].
  split; [|split; [|split; [|split]]].
  - intros data err. eauto with writer.
  - intros Htoken data. cbv beta iota. rewrite Htoken.
    rewrite decide_False by discriminate. rewrite decide_True by reflexivity.
    unfold json_Encode.
    destruct (json_Marshal data) as [err|text]; (eexists; split; [reflexivity|]);
      (split; [|split]; [eapply export_headers; [exact Hw|];
                         rewrite ?header_Write, ?header_WriteHeader; reflexivity ..|]);
      (split; [intros text' [= <-] || (intros text' [=])|intros err' [= <-] || (intros err' [=])]).
    + rewrite code_Write_committed with (statusCode := StatusInternalServerError);
        [reflexivity|]. apply code_respond. rewrite !code_Set_. exact Hw.
    + split.
      * apply code_respond. rewrite !code_Set_. exact Hw.
      * rewrite body_Write, body_WriteHeader, !body_Set_. reflexivity.
  - intros Htoken data. cbv beta iota. rewrite Htoken.
    rewrite !decide_False by discriminate. rewrite decide_True by reflexivity.
    unfold json_Encode.
    destruct (json_Marshal data) as [err|text]; (eexists; split; [reflexivity|]);
      (split; [|split]; [eapply export_headers; [exact Hw|];
                         rewrite ?header_Write, ?header_WriteHeader; reflexivity ..|]);
      (split; [intros text' [= <-] || (intros text' [=])|intros err' [= <-] || (intros err' [=])]).
    + rewrite code_Write_committed with (statusCode := StatusInternalServerError);
        [reflexivity|]. apply code_respond. rewrite !code_Set_. exact Hw.
    + split.
      * apply code_respond. rewrite !code_Set_. exact Hw.
      * rewrite body_Write, body_WriteHeader, !body_Set_. reflexivity.
  - intros Htoken data text Hjson. cbv beta iota. rewrite Htoken.
    rewrite decide_True by reflexivity. rewrite Hjson.
    eexists. split; [reflexivity|]. split; [|split; [|split]].
    + apply code_respond. rewrite code_Set_. exact Hw.
    + rewrite body_Write, body_WriteHeader, body_Set_. reflexivity.
    + rewrite header_Write, header_WriteHeader, header_Set_ by exact Hw.
      apply lookup_insert_ne. discriminate.
    + rewrite header_Write, header_WriteHeader, header_Set_ by exact Hw.
      apply lookup_insert_eq.
  - intros H0 Hz Hg data [err|]; cbv beta iota; [eauto with writer|].
    rewrite !decide_False by assumption. eauto with writer.
Qed.

(** C2. A [POST /data] whose body is the JSON value [null], with a JSON
    content type, an accepted [overwrite] value and a readable stream:
    the body decodes without an error and leaves the payload pointer
    [nil], so the payload holds no event, no device and no profile. The
    handler does not answer 400: it panics on the first field it reads.
    It ends with no response written, against any implementation of the
    data manager, which it does not call. *)
Theorem importRecordedData_null_payload request writer overwrite reader :
  Get (Header request) common.ContentType = common.ContentTypeJSON ->
  overwriteParam request = inr overwrite ->
  bodyReader request = inr reader ->
  json_Decode_RecordedData reader = inr None ->
  importRecordedData request writer = Panic nilDereference
  ∧ (∀ w, importRecordedData request writer ≠ Done w)
  ∧ ∀ M (dm : implementation M) (m : M),
      run dm (importRecordedData request writer) m = Panicked nilDereference
      ∧ calls dm (importRecordedData request writer) m = [].
Proof.
  intros Hct How Hreader Hdec.
  rewrite (importRecordedData_json _ _ Hct), How, Hreader, Hdec.
  split; [reflexivity|]. split; [discriminate|].
  intros M dm m. split; reflexivity.
Qed.

(** A body that does not decode is answered 400, for both start
    requests, without a call of the data manager. *)
Lemma start_undecodable_body request writer err :
  code writer = None ->
  (json_Decode_RecordRequest (Body request) = inl err ->
   ∃ w, startRecording request writer = Done w ∧ code w = Some StatusBadRequest)
  ∧ (json_Decode_ReplayRequest (Body request) = inl err ->
     ∃ w, startReplay request writer = Done w ∧ code w = Some StatusBadRequest).
Proof.
  intros Hw. split; intros Hdec.
  - unfold startRecording. rewrite Hdec. eauto with writer.
  - unfold startReplay. rewrite Hdec. eauto with writer.
Qed.
End controller.

(** ** The theorems at concrete requests *)

(** A negative duration is refused; an event limit of 5 alone is passed
    on to the data manager. *)
Lemma startRecording_validates_request_witness :
  (∃ w, controller.startRecording (L:=sample.lib)
          (sample.post ∅ ∅ (sample.RecordJSON {| dtos.Duration := -1; dtos.EventLimit := 5 |}))
          http.NewRecorder = controller.Done w
      ∧ http.code w = Some http.StatusBadRequest)
  ∧ (∃ k, controller.startRecording (L:=sample.lib)
            (sample.post ∅ ∅ (sample.RecordJSON {| dtos.Duration := 0; dtos.EventLimit := 5 |}))
            http.NewRecorder
          = controller.Invoke
              (controller.StartRecording {| dtos.Duration := 0; dtos.EventLimit := 5 |}) k
        ∧ (∃ w, k None = controller.Done w ∧ http.code w = Some http.StatusAccepted)
        ∧ (∀ err, ∃ w, k (Some err) = controller.Done w
                     ∧ http.code w = Some http.StatusInternalServerError)).
Proof.
  split.
  - apply (proj1 (startRecording_validates_request (L:=sample.lib)
                    (sample.post ∅ ∅ (sample.RecordJSON {| dtos.Duration := -1; dtos.EventLimit := 5 |}))
                    http.NewRecorder _ eq_refl eq_refl)).
    simpl. lia.
  - apply (proj2 (startRecording_validates_request (L:=sample.lib)
                    (sample.post ∅ ∅ (sample.RecordJSON {| dtos.Duration := 0; dtos.EventLimit := 5 |}))
                    http.NewRecorder _ eq_refl eq_refl)); simpl; lia.
Defined.

(** A rate of zero is refused; a rate of 1.0 with no repeat is passed on
    to the data manager. *)
Lemma startReplay_validates_request_witness :
  (∃ w, controller.startReplay (L:=sample.lib)
          (sample.post ∅ ∅ (sample.ReplayJSON
             {| dtos.ReplayRate := S754_zero false; dtos.RepeatCount := 2 |}))
          http.NewRecorder = controller.Done w
      ∧ http.code w = Some http.StatusBadRequest)
  ∧ (∃ k, controller.startReplay (L:=sample.lib)
            (sample.post ∅ ∅ (sample.ReplayJSON
               {| dtos.ReplayRate := S754_finite false 1 0; dtos.RepeatCount := 0 |}))
            http.NewRecorder
          = controller.Invoke
              (controller.StartReplay
                 {| dtos.ReplayRate := S754_finite false 1 0; dtos.RepeatCount := 0 |}) k
        ∧ (∃ w, k None = controller.Done w ∧ http.code w = Some http.StatusAccepted)
        ∧ (∀ err, ∃ w, k (Some err) = controller.Done w
                     ∧ http.code w = Some http.StatusInternalServerError)).
Proof.
  split.
  - apply (proj1 (startReplay_validates_request (L:=sample.lib)
                    (sample.post ∅ ∅ (sample.ReplayJSON
                       {| dtos.ReplayRate := S754_zero false; dtos.RepeatCount := 2 |}))
                    http.NewRecorder _ eq_refl eq_refl)).
    left. reflexivity.
  - apply (proj2 (startReplay_validates_request (L:=sample.lib)
                    (sample.post ∅ ∅ (sample.ReplayJSON
                       {| dtos.ReplayRate := S754_finite false 1 0; dtos.RepeatCount := 0 |}))
                    http.NewRecorder _ eq_refl eq_refl)).
    + reflexivity.
    + simpl. lia.
Defined.

(** An import without events is refused and the stored recording stays. *)
Lemma importRecordedData_rejects_empty_payload_witness :
  ∃ w, controller.importRecordedData (L:=sample.lib)
         (sample.post sample.jsonHeader ∅ (sample.DataJSON sample.noEvents))
         http.NewRecorder = controller.Done w
     ∧ http.code w = Some http.StatusBadRequest
     ∧ http.body w = "no recorded data found: no recorded events"
     ∧ controller.run sample.store
         (controller.importRecordedData (L:=sample.lib)
            (sample.post sample.jsonHeader ∅ (sample.DataJSON sample.noEvents))
            http.NewRecorder) (Some sample.recording)
       = Returned (w, Some sample.recording).
Proof.
  destruct (importRecordedData_rejects_empty_payload (L:=sample.lib)
              (sample.post sample.jsonHeader ∅ (sample.DataJSON sample.noEvents))
              http.NewRecorder true (sample.DataJSON sample.noEvents) sample.noEvents)
    as (w & Hdone & Hcode & Hbody & Hrun).
  - reflexivity.
  - vm_compute. reflexivity.
  - vm_compute. reflexivity.
  - vm_compute. reflexivity.
  - reflexivity.
  - left. reflexivity.
  - exists w. split; [exact Hdone|]. split; [exact Hcode|].
    split; [exact Hbody|]. apply Hrun.
Defined.

(** A [text/plain] import is refused, although its [overwrite] value
    would not parse. *)
Lemma importRecordedData_content_type_first_witness :
  ∃ w, controller.importRecordedData (L:=sample.lib)
         (sample.post {[ "Content-Type" := ["text/plain"] ]} {[ "overwrite" := ["maybe"] ]}
            (sample.DataJSON sample.recording))
         http.NewRecorder = controller.Done w
     ∧ http.code w = Some http.StatusBadRequest.
Proof.
  apply (importRecordedData_content_type_first (L:=sample.lib)
           (sample.post {[ "Content-Type" := ["text/plain"] ]} {[ "overwrite" := ["maybe"] ]}
              (sample.DataJSON sample.recording))
           http.NewRecorder).
  - vm_compute. discriminate.
  - reflexivity.
Defined.

(** An import that names its encoding with the token of export is
    refused. *)
Lemma importRecordedData_unknown_encoding_witness :
  ∃ w, controller.importRecordedData (L:=sample.lib)
         (sample.post (<[ "Content-Encoding" := ["GZIP"] ]> sample.jsonHeader) ∅
            (sample.Gzipped (sample.DataJSON sample.recording)))
         http.NewRecorder = controller.Done w
     ∧ http.code w = Some http.StatusBadRequest.
Proof.
  apply (importRecordedData_unknown_encoding (L:=sample.lib)
           (sample.post (<[ "Content-Encoding" := ["GZIP"] ]> sample.jsonHeader) ∅
              (sample.Gzipped (sample.DataJSON sample.recording)))
           http.NewRecorder).
  - reflexivity.
  - vm_compute. discriminate.
  - vm_compute. discriminate.
  - vm_compute. discriminate.
Defined.

(** Without [overwrite] the flag is [true]; with [overwrite=false] it is
    [false]. *)
Lemma importRecordedData_overwrite_flag_witness :
  controller.importRecordedData (L:=sample.lib)
    (sample.post sample.jsonHeader ∅ (sample.DataJSON sample.recording)) http.NewRecorder
    = controller.Invoke (controller.ImportRecordedData sample.recording true)
        (controller.importReply http.NewRecorder)
  ∧ controller.importRecordedData (L:=sample.lib)
      (sample.post sample.jsonHeader {[ "overwrite" := ["false"] ]}
         (sample.DataJSON sample.recording)) http.NewRecorder
    = controller.Invoke (controller.ImportRecordedData sample.recording false)
        (controller.importReply http.NewRecorder).
Proof.
  split.
  - apply (importRecordedData_overwrite_flag (L:=sample.lib)
             (sample.post sample.jsonHeader ∅ (sample.DataJSON sample.recording))
             http.NewRecorder (sample.DataJSON sample.recording) sample.recording);
      try (vm_compute; reflexivity); discriminate.
  - apply (proj2 (importRecordedData_overwrite_flag (L:=sample.lib)
             (sample.post sample.jsonHeader {[ "overwrite" := ["false"] ]}
                (sample.DataJSON sample.recording))
             http.NewRecorder (sample.DataJSON sample.recording) sample.recording
             ltac:(vm_compute; reflexivity) ltac:(vm_compute; reflexivity) eq_refl
             ltac:(discriminate) ltac:(discriminate) ltac:(discriminate))
           "false" [] false);
      vm_compute; reflexivity.
Defined.

(** An export with [compression=ZLIB] of a stored recording. *)
Lemma exportRecordedData_compression_witness :
  ∃ w, controller.run sample.store
         (controller.exportRecordedData (L:=sample.lib)
            (sample.post ∅ {[ "compression" := ["ZLIB"] ]} sample.Garbage)
            http.NewRecorder) (Some sample.recording)
       = Returned (w, Some sample.recording)
     ∧ http.header w !! "Content-Encoding" = Some ["ZLIB"]
     ∧ http.code w = Some http.StatusOK
     ∧ http.body w = "zlib:{}" +:+ controller.newline.
Proof.
  destruct (exportRecordedData_compression (L:=sample.lib)
              (sample.post ∅ {[ "compression" := ["ZLIB"] ]} sample.Garbage)
              http.NewRecorder eq_refl)
    as (k & Hk & _ & Hzlib & _).
  destruct (Hzlib ltac:(vm_compute; reflexivity) sample.recording)
    as (w & Hw & Hce & _ & Hok & _).
  destruct (Hok "{}" eq_refl) as [Hcode Hbody].
  exists w. rewrite Hk. simpl. rewrite Hw. simpl.
  split; [reflexivity|]. split; [exact Hce|]. split; [exact Hcode|]. exact Hbody.
Defined.

(** * Further properties of the controller *)

Section controller_more.
Context {Event Device DeviceProfile Reader : Type}.
Context {L : controller.Lib Event Device DeviceProfile Reader}.
Import http controller.

Implicit Types (request : Request Reader) (writer w : ResponseWriter).

Local Abbreviation reply := (@handler Event Device DeviceProfile ResponseWriter).

(** X1. [DELETE /record] and [DELETE /replay] read nothing of the
    request: whatever it holds, the handler calls its cancel method, and
    answers 202 with nothing written when that returns no error, 500
    with the error after "failed to cancel recording: " (resp.
    "failed to cancel replay: ") when it returns one. *)
Theorem cancel_handlers_reply request writer :
  code writer = None ->
  (∃ k : option error -> reply,
      (∀ request', cancelRecording request' writer = Invoke CancelRecording k)
      ∧ (∃ w, k None = Done w ∧ code w = Some StatusAccepted
            ∧ body w = body writer ∧ header w = header writer)
      ∧ (∀ err, ∃ w, k (Some err) = Done w
            ∧ code w = Some StatusInternalServerError
            ∧ body w = body writer +:+ ("failed to cancel recording: " +:+ err)))
  ∧ (∃ k : option error -> reply,
      (∀ request', cancelReplay request' writer = Invoke CancelReplay k)
      ∧ (∃ w, k None = Done w ∧ code w = Some StatusAccepted
            ∧ body w = body writer ∧ header w = header writer)
      ∧ (∀ err, ∃ w, k (Some err) = Done w
            ∧ code w = Some StatusInternalServerError
            ∧ body w = body writer +:+ ("failed to cancel replay: " +:+ err))).
Proof.
  intros Hw. split.
  - eexists. split; [intros request'; reflexivity|]. split.
    + eexists. split; [reflexivity|]. split; [apply code_WriteHeader, Hw|].
      split; [apply body_WriteHeader|apply header_WriteHeader].
    + intros err. eexists. split; [reflexivity|].
      split; [apply code_respond, Hw|apply body_respond, Hw].
  - eexists. split; [intros request'; reflexivity|]. split.
    + eexists. split; [reflexivity|]. split; [apply code_WriteHeader, Hw|].
      split; [apply body_WriteHeader|apply header_WriteHeader].
    + intros err. eexists. split; [reflexivity|].
      split; [apply code_respond, Hw|apply body_respond, Hw].
Qed.

(** X2. The body of the answer to [POST /record]. A body that does not
    decode gets "Unable to process request JSON: " and the decoder's
    error. A decoded request with duration and event limit both zero
    gets the "must be set" text; otherwise a negative duration gets the
    duration text, also when the event limit is negative too; otherwise
    a negative event limit gets the event limit text. An accepted
    request gets an empty body on success and "Recording failed: " with
    the error otherwise. No header is set in any case. *)
Theorem startRecording_bodies request writer :
  code writer = None ->
  (∀ err, json_Decode_RecordRequest (Body request) = inl err ->
     ∃ w, startRecording request writer = Done w
        ∧ code w = Some StatusBadRequest
        ∧ body w = body writer +:+ ("Unable to process request JSON: " +:+ err)
        ∧ header w = header writer)
  ∧ (∀ startRequest, json_Decode_RecordRequest (Body request) = inr startRequest ->
     (dtos.Duration startRequest = 0 -> dtos.EventLimit startRequest = 0 ->
        ∃ w, startRecording request writer = Done w
           ∧ body w = body writer +:+ failedRecordRequestValidate
           ∧ header w = header writer)
     ∧ (dtos.Duration startRequest < 0 ->
        ∃ w, startRecording request writer = Done w
           ∧ body w = body writer +:+ failedRecordDurationValidate
           ∧ header w = header writer)
     ∧ (0 <= dtos.Duration startRequest -> dtos.EventLimit startRequest < 0 ->
        ∃ w, startRecording request writer = Done w
           ∧ body w = body writer +:+ failedRecordEventLimitValidate
           ∧ header w = header writer)
     ∧ (0 <= dtos.Duration startRequest -> 0 <= dtos.EventLimit startRequest ->
        0 < dtos.Duration startRequest ∨ 0 < dtos.EventLimit startRequest ->
        ∃ k, startRecording request writer = Invoke (StartRecording startRequest) k
           ∧ (∃ w, k None = Done w ∧ body w = body writer ∧ header w = header writer)
           ∧ (∀ err, ∃ w, k (Some err) = Done w
                 ∧ body w = body writer +:+ ("Recording failed: " +:+ err)
                 ∧ header w = header writer))).
Proof.
  intros Hw. split.
  - intros err Hdec. unfold startRecording. rewrite Hdec.
    eexists. split; [reflexivity|]. split; [apply code_respond, Hw|].
    split; [apply body_respond, Hw|].
    rewrite header_Write. apply header_WriteHeader.
  - intros startRequest Hdec. unfold startRecording. rewrite Hdec.
    split; [|split; [|split]].
    + intros Hd Hn. rewrite decide_True by (split; assumption).
      eexists. split; [reflexivity|]. split; [apply body_respond, Hw|].
      rewrite header_Write. apply header_WriteHeader.
    + intros Hd. rewrite decide_False by lia. rewrite decide_True by exact Hd.
      eexists. split; [reflexivity|]. split; [apply body_respond, Hw|].
      rewrite header_Write. apply header_WriteHeader.
    + intros Hd Hn. rewrite decide_False by lia. rewrite decide_False by lia.
      rewrite decide_True by exact Hn.
      eexists. split; [reflexivity|]. split; [apply body_respond, Hw|].
      rewrite header_Write. apply header_WriteHeader.
    + intros Hd Hn Hpos. rewrite !decide_False by lia.
      eexists. split; [reflexivity|]. split.
      * eexists. split; [reflexivity|].
        split; [apply body_WriteHeader|apply header_WriteHeader].
      * intros err. eexists. split; [reflexivity|].
        split; [apply body_respond, Hw|].
        rewrite header_Write. apply header_WriteHeader.
Qed.

(** X3. The body of the answer to [POST /replay]. A body that does not
    decode gets "Unable to process request JSON: " and the decoder's
    error. A rate that is at most zero gets the replay rate text, also
    when the repeat count is negative too; a negative repeat count with
    a rate that is not at most zero gets the repeat count text. An
    accepted request gets an empty body on success and
    "Replay failed: " with the error otherwise. *)
Theorem startReplay_bodies request writer :
  code writer = None ->
  (∀ err, json_Decode_ReplayRequest (Body request) = inl err ->
     ∃ w, startReplay request writer = Done w
        ∧ code w = Some StatusBadRequest
        ∧ body w = body writer +:+ ("Unable to process request JSON: " +:+ err))
  ∧ (∀ startRequest, json_Decode_ReplayRequest (Body request) = inr startRequest ->
     (SFleb (dtos.ReplayRate startRequest) (S754_zero false) = true ->
        ∃ w, startReplay request writer = Done w
           ∧ body w = body writer +:+ failedReplayRateValidate)
     ∧ (SFleb (dtos.ReplayRate startRequest) (S754_zero false) = false ->
        dtos.RepeatCount startRequest < 0 ->
        ∃ w, startReplay request writer = Done w
           ∧ body w = body writer +:+ failedRepeatCountValidate)
     ∧ (SFleb (dtos.ReplayRate startRequest) (S754_zero false) = false ->
        0 <= dtos.RepeatCount startRequest ->
        ∃ k, startReplay request writer = Invoke (StartReplay startRequest) k
           ∧ (∃ w, k None = Done w ∧ body w = body writer)
           ∧ (∀ err, ∃ w, k (Some err) = Done w
                 ∧ body w = body writer +:+ ("Replay failed: " +:+ err)))).
Proof.
  intros Hw. split.
  - intros err Hdec. unfold startReplay. rewrite Hdec.
    eexists. split; [reflexivity|]. split; [apply code_respond, Hw|].
    apply body_respond, Hw.
  - intros startRequest Hdec. unfold startReplay. rewrite Hdec.
    split; [|split].
    + intros Hrate. rewrite Hrate.
      eexists. split; [reflexivity|]. apply body_respond, Hw.
    + intros Hrate Hcount. rewrite Hrate, decide_True by exact Hcount.
      eexists. split; [reflexivity|]. apply body_respond, Hw.
    + intros Hrate Hcount. rewrite Hrate, decide_False by lia.
      eexists. split; [reflexivity|]. split.
      * eexists. split; [reflexivity|]. apply body_WriteHeader.
      * intros err. eexists. split; [reflexivity|]. apply body_respond, Hw.
Qed.

(** A string of length zero is the empty string. *)
Lemma length_zero_empty (v : string) : String.length v = 0%nat -> v = EmptyString.
Proof. destruct v; [reflexivity|discriminate]. Qed.

(** X4. The [overwrite] parameter of [POST /data] is accepted exactly
    when its value is empty (the flag is then [true]), one of 1, t, T,
    true, TRUE, True ([true]) or one of 0, f, F, false, FALSE, False
    ([false]). With any other value and a JSON content type the handler
    ends with status 400 and "failed to parse overwrite parameter: "
    followed by the error of [ParseBool], without calling the data
    manager and before it looks at the encoding or at the body: a request
    with the same content type and query gets the same answer. *)
Theorem importRecordedData_overwrite_values request writer :
  code writer = None ->
  Get (Header request) common.ContentType = common.ContentTypeJSON ->
  (∀ flag, overwriteParam request = inr flag <->
     (Get (Query request) "overwrite" = EmptyString ∧ flag = true)
     ∨ (Get (Query request) "overwrite" ∈ ["1"; "t"; "T"; "true"; "TRUE"; "True"]
        ∧ flag = true)
     ∨ (Get (Query request) "overwrite" ∈ ["0"; "f"; "F"; "false"; "FALSE"; "False"]
        ∧ flag = false))
  ∧ ((∀ flag, overwriteParam request ≠ inr flag) ->
     (∃ w, importRecordedData request writer = Done w
         ∧ code w = Some StatusBadRequest
         ∧ body w = body writer +:+
             ("failed to parse overwrite parameter: "
                +:+ ParseBool_syntaxError (Get (Query request) "overwrite")))
     ∧ ∀ request',
         Get (Header request') common.ContentType = common.ContentTypeJSON ->
         Query request' = Query request ->
         importRecordedData request' writer = importRecordedData request writer).
Proof.
  intros Hw Hct.
  assert (Hcases : ∀ request0, Query request0 = Query request ->
            overwriteParam request0 =
              if decide (String.length (Get (Query request) "overwrite") = 0%nat)
              then inr true
              else if bool_decide (Get (Query request) "overwrite"
                                     ∈ ["1"; "t"; "T"; "true"; "TRUE"; "True"])
              then inr true
              else if bool_decide (Get (Query request) "overwrite"
                                     ∈ ["0"; "f"; "F"; "false"; "FALSE"; "False"])
              then inr false
              else inl ("failed to parse overwrite parameter: "
                          +:+ ParseBool_syntaxError (Get (Query request) "overwrite"))).
  { intros request0 Hq. unfold overwriteParam, strconv.ParseBool. rewrite Hq.
    repeat (case_decide || case_bool_decide); reflexivity. }
  split.
  - intros flag. rewrite (Hcases request eq_refl). split.
    + case_decide as Hlen.
      { intros [= <-]. left. split; [apply length_zero_empty, Hlen|reflexivity]. }
      case_bool_decide as Ht.
      { intros [= <-]. right. left. split; [exact Ht|reflexivity]. }
      case_bool_decide as Hf; [|discriminate].
      intros [= <-]. right. right. split; [exact Hf|reflexivity].
    + intros [[Hv ->]|[[Hv ->]|[Hv ->]]].
      * rewrite Hv. reflexivity.
      * rewrite decide_False.
        { rewrite bool_decide_eq_true_2 by exact Hv. reflexivity. }
        rewrite !elem_of_cons, elem_of_nil in Hv.
        destruct Hv as [->|[->|[->|[->|[->|[->|[]]]]]]]; discriminate.
      * rewrite decide_False.
        { rewrite bool_decide_eq_false_2.
          - rewrite bool_decide_eq_true_2 by exact Hv. reflexivity.
          - rewrite !elem_of_cons, elem_of_nil in Hv |- *.
            destruct Hv as [->|[->|[->|[->|[->|[->|[]]]]]]];
              intros [?|[?|[?|[?|[?|[?|[]]]]]]]; discriminate. }
        rewrite !elem_of_cons, elem_of_nil in Hv.
        destruct Hv as [->|[->|[->|[->|[->|[->|[]]]]]]]; discriminate.
  - intros Hno.
    assert (Hinl : ∀ request0, Query request0 = Query request ->
              overwriteParam request0 =
                inl ("failed to parse overwrite parameter: "
                       +:+ ParseBool_syntaxError (Get (Query request) "overwrite"))).
    { intros request0 Hq. rewrite (Hcases request0 Hq).
      pose proof (Hcases request eq_refl) as Hself.
      repeat (case_decide || case_bool_decide);
        try reflexivity; exfalso; eapply Hno; exact Hself. }
    split.
    + rewrite (importRecordedData_json _ _ Hct), (Hinl request eq_refl).
      eexists. split; [reflexivity|].
      split; [apply code_respond, Hw|apply body_respond, Hw].
    + intros request' Hct' Hq.
      rewrite (importRecordedData_json _ _ Hct), (importRecordedData_json _ _ Hct').
      rewrite (Hinl request eq_refl), (Hinl request' Hq). reflexivity.
Qed.

(** X5. A [POST /data] whose stream cannot be opened or decoded is
    answered 400 without a call of the data manager: with
    "failed to uncompress data: " and the error when [gzip.NewReader]
    (for [gzip]) or [zlib.NewReader] (for [deflate]) refuses the body,
    with "Unable to process request JSON: " and the error when the
    decoder fails on the chosen reader. *)
Theorem importRecordedData_unreadable_body request writer overwrite :
  code writer = None ->
  Get (Header request) common.ContentType = common.ContentTypeJSON ->
  overwriteParam request = inr overwrite ->
  (∀ err, Get (Header request) "Content-Encoding" = "gzip" ->
     gzip_NewReader (Body request) = inl err ->
     ∃ w, importRecordedData request writer = Done w
        ∧ code w = Some StatusBadRequest
        ∧ body w = body writer +:+ ("failed to uncompress data: " +:+ err))
  ∧ (∀ err, Get (Header request) "Content-Encoding" = "deflate" ->
     zlib_NewReader (Body request) = inl err ->
     ∃ w, importRecordedData request writer = Done w
        ∧ code w = Some StatusBadRequest
        ∧ body w = body writer +:+ ("failed to uncompress data: " +:+ err))
  ∧ (∀ reader err, bodyReader request = inr reader ->
     json_Decode_RecordedData reader = inl err ->
     ∃ w, importRecordedData request writer = Done w
        ∧ code w = Some StatusBadRequest
        ∧ body w = body writer +:+ ("Unable to process request JSON: " +:+ err)).
Proof.
  intros Hw Hct How.
  rewrite (importRecordedData_json _ _ Hct), How.
  split; [|split].
  - intros err Hce Hgz. unfold bodyReader. rewrite Hce, Hgz. simpl.
    eexists. split; [reflexivity|].
    split; [apply code_respond, Hw|apply body_respond, Hw].
  - intros err Hce Hzl. unfold bodyReader. rewrite Hce, Hzl. simpl.
    eexists. split; [reflexivity|].
    split; [apply code_respond, Hw|apply body_respond, Hw].
  - intros reader err Hreader Hdec. rewrite Hreader, Hdec.
    eexists. split; [reflexivity|].
    split; [apply code_respond, Hw|apply body_respond, Hw].
Qed.

(** X6. A [POST /data] with a JSON content type, an accepted [overwrite]
    value, a readable stream and a payload with at least one event, one
    device and one profile hands exactly the decoded payload and the
    flag to [ImportRecordedData], once. It answers 202 with nothing
    written when that returns no error, and 500 with
    "Import data failed: " and the error when it returns one; the state
    of the data manager is the one the method left. *)
Theorem importRecordedData_complete_payload request writer overwrite reader data :
  code writer = None ->
  Get (Header request) common.ContentType = common.ContentTypeJSON ->
  overwriteParam request = inr overwrite ->
  bodyReader request = inr reader ->
  json_Decode_RecordedData reader = inr (Some data) ->
  dtos.RecordedEvents data ≠ [] ->
  dtos.Devices data ≠ [] ->
  dtos.Profiles data ≠ [] ->
  importRecordedData request writer
    = Invoke (ImportRecordedData data overwrite) (importReply writer)
  ∧ (∃ w, importReply writer None = (Done w : reply) ∧ code w = Some StatusAccepted
        ∧ body w = body writer ∧ header w = header writer)
  ∧ (∀ err, ∃ w, importReply writer (Some err) = (Done w : reply)
        ∧ code w = Some StatusInternalServerError
        ∧ body w = body writer +:+ ("Import data failed: " +:+ err))
  ∧ ∀ M (dm : implementation M) (m m' : M) answer,
      dm _ (ImportRecordedData data overwrite) m = Returned (answer, m') ->
      ∃ w, run dm (importRecordedData request writer) m = Returned (w, m')
         ∧ importReply writer answer = (Done w : reply)
         ∧ calls dm (importRecordedData request writer) m = [mImportRecordedData].
Proof.
  intros Hw Hct How Hreader Hdec He Hd Hp.
  assert (Hgo : importRecordedData request writer
                = Invoke (ImportRecordedData data overwrite) (importReply writer)).
  { rewrite (importRecordedData_json _ _ Hct), How, Hreader, Hdec.
    destruct (dtos.RecordedEvents data), (dtos.Devices data), (dtos.Profiles data);
      congruence. }
  split; [exact Hgo|]. split; [|split].
  - eexists. split; [reflexivity|]. split; [apply code_WriteHeader, Hw|].
    split; [apply body_WriteHeader|apply header_WriteHeader].
  - intros err. eexists. split; [reflexivity|].
    split; [apply code_respond, Hw|apply body_respond, Hw].
  - intros M dm m m' answer Hdm. rewrite Hgo. simpl. rewrite Hdm.
    destruct answer as [err|]; simpl; eexists; repeat split; reflexivity.
Qed.

(** X7. Whatever the request, [POST /data] ends in one of three ways: a
    400 answer that sets no header, made without calling the data
    manager; a panic on a payload pointer left [nil]; or one call of
    [ImportRecordedData] whose payload has at least one event, one
    device and one profile, answered 202 when the call returns no error
    and 500 when it returns one. Without a call of the data manager the
    handler answers nothing but 400, and it calls no other method. *)
Theorem importRecordedData_outcomes request writer :
  code writer = None ->
  (∃ w, importRecordedData request writer = Done w
      ∧ code w = Some StatusBadRequest ∧ header w = header writer)
  ∨ importRecordedData request writer = Panic nilDereference
  ∨ (∃ data overwrite,
       importRecordedData request writer
         = Invoke (ImportRecordedData data overwrite) (importReply writer)
       ∧ dtos.RecordedEvents data ≠ []
       ∧ dtos.Devices data ≠ []
       ∧ dtos.Profiles data ≠ []
       ∧ (∃ w, importReply writer None = (Done w : reply)
             ∧ code w = Some StatusAccepted)
       ∧ (∀ err, ∃ w, importReply writer (Some err) = (Done w : reply)
             ∧ code w = Some StatusInternalServerError)).
Proof.
  intros Hw.
  assert (Hbad : ∀ msg, ∃ w,
            Done (writer |> WriteHeader StatusBadRequest |> Write msg)
              = Done (Event:=Event) (Device:=Device) (DeviceProfile:=DeviceProfile) w
            ∧ code w = Some StatusBadRequest ∧ header w = header writer).
  { intros msg. eexists. split; [reflexivity|]. split; [apply code_respond, Hw|].
    rewrite header_Write. apply header_WriteHeader. }
  unfold importRecordedData. case_decide; [left; apply Hbad|].
  destruct (overwriteParam request) as [msg|overwrite]; [left; apply Hbad|].
  destruct (bodyReader request) as [msg|reader]; [left; apply Hbad|].
  destruct (json_Decode_RecordedData reader) as [err|[data|]];
    [left; apply Hbad| |right; left; reflexivity].
  destruct (dtos.RecordedEvents data) as [|e es] eqn:He;
    [rewrite decide_True by (simpl; lia); left; apply Hbad
    |rewrite decide_False by (simpl; lia)].
  destruct (dtos.Devices data) as [|d ds] eqn:Hd;
    [rewrite decide_True by (simpl; lia); left; apply Hbad
    |rewrite decide_False by (simpl; lia)].
  destruct (dtos.Profiles data) as [|p ps] eqn:Hp;
    [rewrite decide_True by (simpl; lia); left; apply Hbad
    |rewrite decide_False by (simpl; lia)].
  right. right. exists data, overwrite.
  split; [reflexivity|]. rewrite He, Hd, Hp.
  split; [discriminate|]. split; [discriminate|]. split; [discriminate|].
  split.
  - eexists. split; [reflexivity|]. apply code_WriteHeader, Hw.
  - intros err. eexists. split; [reflexivity|]. apply code_respond, Hw.
Qed.

(** X8. Against any implementation of the data manager, each handler
    calls at most one method, and only its own: the two cancel handlers
    and the export handler call theirs exactly once on every request
    (the export handler before it looks at the compression token); the
    two start handlers and the import handler call theirs once or not
    at all. *)
Theorem handlers_call_their_own_method {M : Type}
    (dm : @implementation Event Device DeviceProfile M) (m : M) request writer :
  (calls dm (startRecording request writer) m = []
   ∨ calls dm (startRecording request writer) m = [mStartRecording])
  ∧ calls dm (cancelRecording request writer) m = [mCancelRecording]
  ∧ (calls dm (startReplay request writer) m = []
     ∨ calls dm (startReplay request writer) m = [mStartReplay])
  ∧ calls dm (cancelReplay request writer) m = [mCancelReplay]
  ∧ calls dm (exportRecordedData request writer) m = [mExportRecordedData]
  ∧ (calls dm (importRecordedData request writer) m = []
     ∨ calls dm (importRecordedData request writer) m = [mImportRecordedData]).
Proof.
  split; [|split; [|split; [|split; [|split]]]].
  - unfold startRecording.
    destruct (json_Decode_RecordRequest (Body request)) as [err|r]; [left; reflexivity|].
    repeat case_decide; try (left; reflexivity).
    right. simpl. destruct (dm _ _ m) as [[[err|] m']|msg]; reflexivity.
  - unfold cancelRecording. simpl.
    destruct (dm _ _ m) as [[[err|] m']|msg]; reflexivity.
  - unfold startReplay.
    destruct (json_Decode_ReplayRequest (Body request)) as [err|r]; [left; reflexivity|].
    destruct (SFleb _ _); [left; reflexivity|].
    case_decide; [left; reflexivity|].
    right. simpl. destruct (dm _ _ m) as [[[err|] m']|msg]; reflexivity.
  - unfold cancelReplay. simpl.
    destruct (dm _ _ m) as [[[err|] m']|msg]; reflexivity.
  - unfold exportRecordedData. simpl.
    destruct (dm _ _ m) as [[[data [err|]] m']|msg]; [reflexivity| |reflexivity].
    unfold json_Encode.
    repeat case_decide; destruct (json_Marshal data); reflexivity.
  - unfold importRecordedData. case_decide; [left; reflexivity|].
    destruct (overwriteParam request) as [msg|overwrite]; [left; reflexivity|].
    destruct (bodyReader request) as [msg|reader]; [left; reflexivity|].
    destruct (json_Decode_RecordedData reader) as [err|[data|]];
      try (left; reflexivity).
    repeat case_decide; try (left; reflexivity).
    right. simpl. destruct (dm _ _ m) as [[[err|] m']|msg]; reflexivity.
Qed.

(** X9. What a failed [GET /data] writes. An error of the data manager:
    "failed to export recorded data: " and the error, no header set. An
    unknown compression token: "compression format not available: " and
    the token, no header set. Data that does not marshal, with no
    compression: "failed to marshal recorded data", no header set. Data
    that does not marshal, with [ZLIB] (resp. [GZIP]): the status is
    500, the [Content-Encoding] header is set all the same, and the
    body is "failed to compress recorded data of type ZLIB: " (resp.
    GZIP) with the error, followed by what the compressing writer emits
    when it is closed on no input. *)
Theorem exportRecordedData_failures request writer :
  code writer = None ->
  ∃ k, exportRecordedData request writer = Invoke ExportRecordedData k
   ∧ (∀ data err, ∃ w, k (data, Some err) = Done w
        ∧ body w = body writer +:+ ("failed to export recorded data: " +:+ err)
        ∧ header w = header writer)
   ∧ (Get (Query request) "compression" ≠ EmptyString ->
      Get (Query request) "compression" ≠ "ZLIB" ->
      Get (Query request) "compression" ≠ "GZIP" ->
      ∀ data, ∃ w, k (data, None) = Done w
        ∧ body w = body writer +:+ ("compression format not available: "
                                      +:+ Get (Query request) "compression")
        ∧ header w = header writer)
   ∧ (Get (Query request) "compression" = EmptyString ->
      ∀ data err, json_Marshal data = inl err ->
      ∃ w, k (data, None) = Done w
        ∧ code w = Some StatusInternalServerError
        ∧ body w = body writer +:+ "failed to marshal recorded data"
        ∧ header w = header writer)
   ∧ (Get (Query request) "compression" = "ZLIB" ->
      ∀ data err, json_Marshal data = inl err ->
      ∃ w, k (data, None) = Done w
        ∧ code w = Some StatusInternalServerError
        ∧ header w !! "Content-Encoding" = Some ["ZLIB"]
        ∧ body w = (body writer
                      +:+ ("failed to compress recorded data of type ZLIB: " +:+ err))
                   +:+ zlib_compress EmptyString)
   ∧ (Get (Query request) "compression" = "GZIP" ->
      ∀ data err, json_Marshal data = inl err ->
      ∃ w, k (data, None) = Done w
        ∧ code w = Some StatusInternalServerError
        ∧ header w !! "Content-Encoding" = Some ["GZIP"]
        ∧ body w = (body writer
                      +:+ ("failed to compress recorded data of type GZIP: " +:+ err))
                   +:+ gzip_compress EmptyString).
Proof.
  intros Hw. eexists. split; [reflexivity|].
  split; [|split; [|split; [|split]]].
  - intros data err. eexists. split; [reflexivity|].
    split; [apply body_respond, Hw|].
    rewrite header_Write. apply header_WriteHeader.
  - intros H0 Hz Hg data. cbv beta iota.
    rewrite !decide_False by assumption.
    eexists. split; [reflexivity|]. split; [apply body_respond, Hw|].
    rewrite header_Write. apply header_WriteHeader.
  - intros Htoken data err Hjson. cbv beta iota.
    rewrite Htoken, decide_True by reflexivity. rewrite Hjson.
    eexists. split; [reflexivity|]. split; [apply code_respond, Hw|].
    split; [apply body_respond, Hw|].
    rewrite header_Write. apply header_WriteHeader.
  - intros Htoken data err Hjson. cbv beta iota. rewrite Htoken.
    rewrite decide_False by discriminate. rewrite decide_True by reflexivity.
    unfold json_Encode. rewrite Hjson.
    eexists. split; [reflexivity|]. split; [|split].
    + apply code_Write_committed, code_respond. rewrite !code_Set_. exact Hw.
    + eapply export_headers; [exact Hw|].
      rewrite !header_Write, header_WriteHeader. reflexivity.
    + rewrite !body_Write, body_WriteHeader, !body_Set_. reflexivity.
  - intros Htoken data err Hjson. cbv beta iota. rewrite Htoken.
    rewrite !decide_False by discriminate. rewrite decide_True by reflexivity.
    unfold json_Encode. rewrite Hjson.
    eexists. split; [reflexivity|]. split; [|split].
    + apply code_Write_committed, code_respond. rewrite !code_Set_. exact Hw.
    + eapply export_headers; [exact Hw|].
      rewrite !header_Write, header_WriteHeader. reflexivity.
    + rewrite !body_Write, body_WriteHeader, !body_Set_. reflexivity.
Qed.

(** The first value under a key that is set. *)
Lemma Get_lookup (h : gmap string (list string)) key value :
  h !! key = Some [value] -> Get h key = value.
Proof. unfold Get. intros ->. reflexivity. Qed.

(** A key that is not set reads as the empty string. *)
Lemma Get_absent (h : gmap string (list string)) key :
  h !! key = None -> Get h key = EmptyString.
Proof. unfold Get. intros ->. reflexivity. Qed.

(** X10. A compressed export cannot be posted back under the headers it
    came with. When [GET /data] with [ZLIB] or [GZIP] has answered, a
    [POST /data] that carries the headers of that answer reads its own
    [Content-Encoding] as the export token and is refused with status
    400, whatever its body; with an accepted [overwrite] value the text
    is "compression format ZLIB not supported" (resp. GZIP). *)
Theorem compressed_export_headers_refused {M : Type}
    (dm : @implementation Event Device DeviceProfile M) (m m' : M)
    request writer data w (request' : Request Reader) writer' :
  code writer = None ->
  code writer' = None ->
  Get (Query request) "compression" = "ZLIB"
  ∨ Get (Query request) "compression" = "GZIP" ->
  dm _ ExportRecordedData m = Returned ((data, None), m') ->
  run dm (exportRecordedData request writer) m = Returned (w, m') ->
  Header request' = header w ->
  Get (Header request') "Content-Encoding" = Get (Query request) "compression"
  ∧ ∃ w', importRecordedData request' writer' = Done w'
        ∧ code w' = Some StatusBadRequest
        ∧ (∀ overwrite, overwriteParam request' = inr overwrite ->
             body w' = body writer' +:+
               ("compression format " +:+ Get (Query request) "compression"
                  +:+ " not supported")).
Proof.
  intros Hw Hw' Htoken Hdm Hrun Hh.
  assert (Hheaders : header w !! "Content-Encoding"
                       = Some [Get (Query request) "compression"]
                     ∧ header w !! "Content-Type" = Some ["application/json"]).
  { unfold exportRecordedData in Hrun. simpl in Hrun. rewrite Hdm in Hrun.
    unfold json_Encode in Hrun.
    destruct Htoken as [Ht|Ht]; rewrite Ht in Hrun |- *;
      rewrite ?decide_False in Hrun by discriminate;
      rewrite decide_True in Hrun by reflexivity;
      destruct (json_Marshal data); simpl in Hrun; injection Hrun as <-;
      (eapply export_headers; [exact Hw|]);
      rewrite ?header_Write, ?header_WriteHeader; reflexivity. }
  destruct Hheaders as [Hce Hct].
  rewrite <- Hh in Hce, Hct.
  apply Get_lookup in Hce. apply Get_lookup in Hct.
  split; [exact Hce|].
  assert (Hreader : bodyReader request'
            = inl ("compression format " +:+ Get (Query request) "compression"
                     +:+ " not supported")).
  { unfold bodyReader. rewrite Hce.
    destruct Htoken as [Ht|Ht]; rewrite Ht; reflexivity. }
  rewrite (importRecordedData_json _ _ Hct).
  destruct (overwriteParam request') as [msg|overwrite].
  - eexists. split; [reflexivity|]. split; [apply code_respond, Hw'|].
    intros overwrite [=].
  - rewrite Hreader. eexists. split; [reflexivity|].
    split; [apply code_respond, Hw'|]. intros _ _. apply body_respond, Hw'.
Qed.

(** X11. An export without compression can be posted back as it is.
    Where the decoder reads the marshalled text back as the data,
    [GET /data] with no compression token answers 200, and a
    [POST /data] with the headers and the body of that answer and no
    [overwrite] parameter hands the same data to [ImportRecordedData]
    with the flag [true], provided the data has an event, a device and a
    profile; exported data that lacks one of them is refused by the
    import with status 400. *)
Theorem uncompressed_export_imports_back {M : Type}
    (dm : @implementation Event Device DeviceProfile M) (m m' : M)
    request writer data text (asReader : string -> Reader) :
  code writer = None ->
  body writer = EmptyString ->
  header writer !! "Content-Encoding" = None ->
  Get (Query request) "compression" = EmptyString ->
  dm _ ExportRecordedData m = Returned ((data, None), m') ->
  json_Marshal data = inr text ->
  json_Decode_RecordedData (asReader text) = inr (Some data) ->
  ∃ w, run dm (exportRecordedData request writer) m = Returned (w, m')
     ∧ code w = Some StatusOK
     ∧ body w = text
     ∧ ∀ (request' : Request Reader) writer',
         Header request' = header w ->
         Query request' !! "overwrite" = None ->
         Body request' = asReader (body w) ->
         (dtos.RecordedEvents data ≠ [] -> dtos.Devices data ≠ [] ->
          dtos.Profiles data ≠ [] ->
          importRecordedData request' writer'
            = Invoke (ImportRecordedData data true) (importReply writer'))
         ∧ (code writer' = None ->
            dtos.RecordedEvents data = [] ∨ dtos.Devices data = []
            ∨ dtos.Profiles data = [] ->
            ∃ w', importRecordedData request' writer' = Done w'
                ∧ code w' = Some StatusBadRequest).
Proof.
  intros Hw Hbody Hnoce Htoken Hdm Hjson Hdec.
  eexists. split.
  { unfold exportRecordedData. simpl. rewrite Hdm, Htoken.
    rewrite decide_True by reflexivity. rewrite Hjson. reflexivity. }
  split; [apply code_respond; rewrite code_Set_; exact Hw|].
  split; [rewrite body_Write, body_WriteHeader, body_Set_, Hbody; reflexivity|].
  intros request' writer' Hh Hq Hb.
  rewrite body_Write, body_WriteHeader, body_Set_, Hbody in Hb. simpl in Hb.
  rewrite header_Write, header_WriteHeader, header_Set_ in Hh by exact Hw.
  assert (Hct : Get (Header request') common.ContentType = common.ContentTypeJSON).
  { apply Get_lookup. rewrite Hh. apply lookup_insert_eq. }
  assert (Hce : Get (Header request') "Content-Encoding" = EmptyString).
  { apply Get_absent. rewrite Hh, lookup_insert_ne by discriminate. exact Hnoce. }
  assert (How : overwriteParam request' = inr true).
  { apply overwriteParam_empty, Get_absent, Hq. }
  assert (Hreader : bodyReader request' = inr (asReader text)).
  { unfold bodyReader. rewrite Hce, Hb. reflexivity. }
  rewrite (importRecordedData_json _ _ Hct), How, Hreader, Hdec.
  split.
  - intros He Hd Hp.
    destruct (dtos.RecordedEvents data), (dtos.Devices data), (dtos.Profiles data);
      congruence.
  - intros Hw' Hempty.
    destruct (dtos.RecordedEvents data), (dtos.Devices data), (dtos.Profiles data);
      try (destruct Hempty as [?|[?|?]]; discriminate);
      (eexists; split; [reflexivity|apply code_respond, Hw']).
Qed.

(** X12. A compressed export can be posted back once its encoding is
    renamed. Where [zlib.NewReader] (resp. [gzip.NewReader]) opens what
    the compressing writer produced and the decoder reads the encoder's
    text back as the data, [GET /data] with [ZLIB] (resp. [GZIP])
    answers 200, and a [POST /data] with a JSON content type, the body
    of that answer, no [overwrite] parameter and
    [Content-Encoding: deflate] (resp. [gzip]) hands the same data to
    [ImportRecordedData] with the flag [true] when the data has an
    event, a device and a profile; exported data that lacks one of them
    is refused by the import with status 400. *)
Theorem compressed_export_imports_back_renamed {M : Type}
    (dm : @implementation Event Device DeviceProfile M) (m m' : M)
    request writer data text (asReader : string -> Reader) :
  code writer = None ->
  body writer = EmptyString ->
  dm _ ExportRecordedData m = Returned ((data, None), m') ->
  json_Marshal data = inr text ->
  json_Decode_RecordedData (asReader (text +:+ newline)) = inr (Some data) ->
  (Get (Query request) "compression" = "ZLIB" ->
   zlib_NewReader (asReader (zlib_compress (text +:+ newline)))
     = inr (asReader (text +:+ newline)) ->
   ∃ w, run dm (exportRecordedData request writer) m = Returned (w, m')
      ∧ code w = Some StatusOK
      ∧ ∀ (request' : Request Reader) writer',
          Get (Header request') common.ContentType = common.ContentTypeJSON ->
          Get (Header request') "Content-Encoding" = "deflate" ->
          Query request' !! "overwrite" = None ->
          Body request' = asReader (body w) ->
          (dtos.RecordedEvents data ≠ [] -> dtos.Devices data ≠ [] ->
           dtos.Profiles data ≠ [] ->
           importRecordedData request' writer'
             = Invoke (ImportRecordedData data true) (importReply writer'))
          ∧ (code writer' = None ->
             dtos.RecordedEvents data = [] ∨ dtos.Devices data = []
             ∨ dtos.Profiles data = [] ->
             ∃ w', importRecordedData request' writer' = Done w'
                 ∧ code w' = Some StatusBadRequest))
  ∧ (Get (Query request) "compression" = "GZIP" ->
     gzip_NewReader (asReader (gzip_compress (text +:+ newline)))
       = inr (asReader (text +:+ newline)) ->
     ∃ w, run dm (exportRecordedData request writer) m = Returned (w, m')
        ∧ code w = Some StatusOK
        ∧ ∀ (request' : Request Reader) writer',
            Get (Header request') common.ContentType = common.ContentTypeJSON ->
            Get (Header request') "Content-Encoding" = "gzip" ->
            Query request' !! "overwrite" = None ->
            Body request' = asReader (body w) ->
            (dtos.RecordedEvents data ≠ [] -> dtos.Devices data ≠ [] ->
             dtos.Profiles data ≠ [] ->
             importRecordedData request' writer'
               = Invoke (ImportRecordedData data true) (importReply writer'))
            ∧ (code writer' = None ->
               dtos.RecordedEvents data = [] ∨ dtos.Devices data = []
               ∨ dtos.Profiles data = [] ->
               ∃ w', importRecordedData request' writer' = Done w'
                   ∧ code w' = Some StatusBadRequest)).
Proof.
  intros Hw Hbody Hdm Hjson Hdec.
  assert (Hgo : ∀ (request' : Request Reader) writer' reader,
            Get (Header request') common.ContentType = common.ContentTypeJSON ->
            Query request' !! "overwrite" = None ->
            bodyReader request' = inr reader ->
            json_Decode_RecordedData reader = inr (Some data) ->
            (dtos.RecordedEvents data ≠ [] -> dtos.Devices data ≠ [] ->
             dtos.Profiles data ≠ [] ->
             importRecordedData request' writer'
               = Invoke (ImportRecordedData data true) (importReply writer'))
            ∧ (code writer' = None ->
               dtos.RecordedEvents data = [] ∨ dtos.Devices data = []
               ∨ dtos.Profiles data = [] ->
               ∃ w', importRecordedData request' writer' = Done w'
                   ∧ code w' = Some StatusBadRequest)).
  { intros request' writer' reader Hct Hq Hreader Hdec'.
    rewrite (importRecordedData_json _ _ Hct).
    rewrite (overwriteParam_empty _ (Get_absent _ _ Hq)), Hreader, Hdec'.
    split.
    - intros He Hd Hp.
      destruct (dtos.RecordedEvents data), (dtos.Devices data), (dtos.Profiles data);
        congruence.
    - intros Hw' Hempty.
      destruct (dtos.RecordedEvents data), (dtos.Devices data), (dtos.Profiles data);
        try (destruct Hempty as [?|[?|?]]; discriminate);
        (eexists; split; [reflexivity|apply code_respond, Hw']). }
  split.
  - intros Htoken Hopen. eexists. split.
    { unfold exportRecordedData. simpl. rewrite Hdm, Htoken.
      rewrite decide_False by discriminate. rewrite decide_True by reflexivity.
      unfold json_Encode. rewrite Hjson. reflexivity. }
    split; [apply code_respond; rewrite !code_Set_; exact Hw|].
    intros request' writer' Hct Hce Hq Hb.
    rewrite body_Write, body_WriteHeader, !body_Set_, Hbody in Hb.
    change (EmptyString +:+ ?x) with x in Hb.
    apply (Hgo _ _ (asReader (text +:+ newline)) Hct Hq); [|exact Hdec].
    unfold bodyReader. rewrite Hce, Hb.
    rewrite !decide_False by discriminate. rewrite decide_True by reflexivity.
    rewrite Hopen. reflexivity.
  - intros Htoken Hopen. eexists. split.
    { unfold exportRecordedData. simpl. rewrite Hdm, Htoken.
      rewrite !decide_False by discriminate. rewrite decide_True by reflexivity.
      unfold json_Encode. rewrite Hjson. reflexivity. }
    split; [apply code_respond; rewrite !code_Set_; exact Hw|].
    intros request' writer' Hct Hce Hq Hb.
    rewrite body_Write, body_WriteHeader, !body_Set_, Hbody in Hb.
    change (EmptyString +:+ ?x) with x in Hb.
    apply (Hgo _ _ (asReader (text +:+ newline)) Hct Hq); [|exact Hdec].
    unfold bodyReader. rewrite Hce, Hb.
    rewrite decide_False by discriminate. rewrite decide_True by reflexivity.
    rewrite Hopen. reflexivity.
Qed.
End controller_more.

(** * The status handlers *)

Section status_more.
Import http controller.
Context {RecordStatusDto ReplayStatusDto M Reader : Type}.
Context (json_Marshal_RecordStatus : RecordStatusDto -> error + string).
Context (json_Marshal_ReplayStatus : ReplayStatusDto -> error + string).
Context (RecordingStatus : M -> outcome (RecordStatusDto * M)).
Context (ReplayStatus : M -> outcome (ReplayStatusDto * M)).

Local Abbreviation recordingStatus :=
  (status.recordingStatus (Reader:=Reader) json_Marshal_RecordStatus RecordingStatus).
Local Abbreviation replayStatus :=
  (status.replayStatus (Reader:=Reader) json_Marshal_ReplayStatus ReplayStatus).

(** X13. [GET /record] and [GET /replay] read nothing of the request and
    set no header. Each asks the data manager for its status once and
    leaves the manager in the state the method left; it answers 200
    with the marshalled status as body, or 500 with
    "failed to marshal recording status: " (resp. "replay status") and
    the error when the status does not marshal. When the status method
    panics, so does the handler. *)
Theorem status_handlers_reply (request : Request Reader) (writer : ResponseWriter) (m : M) :
  code writer = None ->
  match RecordingStatus m with
  | Panicked msg => recordingStatus request writer m = Panicked msg
  | Returned (st, m') =>
      ∃ w, (∀ request', recordingStatus request' writer m = Returned (w, m'))
         ∧ header w = header writer
         ∧ match json_Marshal_RecordStatus st with
           | inr text => code w = Some StatusOK ∧ body w = body writer +:+ text
           | inl err =>
               code w = Some StatusInternalServerError
               ∧ body w = body writer
                           +:+ ("failed to marshal recording status: " +:+ err)
           end
  end
  ∧ match ReplayStatus m with
    | Panicked msg => replayStatus request writer m = Panicked msg
    | Returned (st, m') =>
        ∃ w, (∀ request', replayStatus request' writer m = Returned (w, m'))
           ∧ header w = header writer
           ∧ match json_Marshal_ReplayStatus st with
             | inr text => code w = Some StatusOK ∧ body w = body writer +:+ text
             | inl err =>
                 code w = Some StatusInternalServerError
                 ∧ body w = body writer
                             +:+ ("failed to marshal replay status: " +:+ err)
             end
    end.
Proof.
  intros Hw. split.
  - unfold status.recordingStatus.
    destruct (RecordingStatus m) as [[st m']|msg]; [|reflexivity].
    destruct (json_Marshal_RecordStatus st) as [err|text];
      (eexists; split; [intros request'; reflexivity|]);
      (split; [rewrite header_Write; apply header_WriteHeader|]);
      (split; [apply code_respond, Hw|apply body_respond, Hw]).
  - unfold status.replayStatus.
    destruct (ReplayStatus m) as [[st m']|msg]; [|reflexivity].
    destruct (json_Marshal_ReplayStatus st) as [err|text];
      (eexists; split; [intros request'; reflexivity|]);
      (split; [rewrite header_Write; apply header_WriteHeader|]);
      (split; [apply code_respond, Hw|apply body_respond, Hw]).
Qed.
End status_more.

(** * The routes *)

Section routes_more.
Import routes.

(** Appending to the same prefix keeps different suffixes apart. *)
Lemma append_prefix_inj (prefix a b : string) :
  prefix +:+ a = prefix +:+ b -> a = b.
Proof.
  induction prefix as [|c prefix IH]; simpl; [auto|].
  intros [= H]. apply IH, H.
Qed.

(** X14. [AddRoutes] hands the eight routes of the controller to the
    application service in the order of [routeTable], each path with
    the method and the handler listed there, and no path twice with the
    same method. When the service accepts them all, it logs
    "Add Record & Replay routes" and returns [nil]. When the service
    refuses one, the routes before it stay registered, none after it is
    attempted, nothing is logged, and the error returned is
    "failed to added <route> route for <method> method: " followed by
    the error of the service. *)
Theorem AddRoutes_registers_in_order {S : Type} (ApiBase : string)
    (addRoute : string -> handlerName -> string -> S -> option error * S) (s : S) :
  NoDup (map (λ entry, (entry.1.1, entry.2)) (routeTable ApiBase))
  ∧ ∃ result s' events,
      runSdk addRoute (AddRoutes ApiBase) s = (result, s', events)
      ∧ ((result = None
          ∧ events = (map accepted (routeTable ApiBase)
                        ++ [Logged "Add Record & Replay routes"])%list)
         ∨ (∃ done route handler method rest err,
              routeTable ApiBase = (done ++ (route, handler, method) :: rest)%list
              ∧ events = (map accepted done
                            ++ [Registered route handler method (Some err)])%list
              ∧ result = Some (failedRouteMessage route method err))).
Proof.
  split.
  - unfold routeTable, recordRoute, replayRoute, dataRoute. simpl.
    unfold MethodPost, MethodGet, MethodDelete.
    repeat (apply NoDup_cons_2;
            [intros H; rewrite ?elem_of_cons, ?elem_of_nil in H;
             repeat (destruct H as [H|H]); try (exact H);
             injection H; clear H; intros;
             first [congruence
                   |match goal with
                    | H1 : _ +:+ _ = _ +:+ _ |- _ =>
                        apply append_prefix_inj in H1; discriminate H1
                    end]|]).
    apply NoDup_nil_2.
  - unfold AddRoutes, orReturn. simpl.
    repeat match goal with
           | |- context [addRoute ?r ?h ?meth ?st] =>
               destruct (addRoute r h meth st) as [[?err|] ?s] eqn:?; simpl
           end;
      do 3 eexists; (split; [reflexivity|]);
      first
        [ left; split; reflexivity
        | right; exists (firstn 0 (routeTable ApiBase)); do 5 eexists;
          split; [reflexivity|split; reflexivity]
        | right; exists (firstn 1 (routeTable ApiBase)); do 5 eexists;
          split; [reflexivity|split; reflexivity]
        | right; exists (firstn 2 (routeTable ApiBase)); do 5 eexists;
          split; [reflexivity|split; reflexivity]
        | right; exists (firstn 3 (routeTable ApiBase)); do 5 eexists;
          split; [reflexivity|split; reflexivity]
        | right; exists (firstn 4 (routeTable ApiBase)); do 5 eexists;
          split; [reflexivity|split; reflexivity]
        | right; exists (firstn 5 (routeTable ApiBase)); do 5 eexists;
          split; [reflexivity|split; reflexivity]
        | right; exists (firstn 6 (routeTable ApiBase)); do 5 eexists;
          split; [reflexivity|split; reflexivity]
        | right; exists (firstn 7 (routeTable ApiBase)); do 5 eexists;
          split; [reflexivity|split; reflexivity] ].
Qed.
End routes_more.

(** * The pipeline functions *)

Section pipeline_more.
Context {Event Ctx ApplicationService AppFunctionContext Any : Type}.
Import data pipeline.

(** X15. [countEvents] and [processBatchedData] take no batch in. Every
    delivery, to either function and in any order, returns
    [(false, nil)] and leaves the manager as it was: on a new manager
    the hand-off channel is still empty after any number of
    deliveries. *)
Theorem pipeline_functions_take_nothing_in
    (m : dataManager Event Ctx ApplicationService)
    (ctx : Ctx) (service : ApplicationService)
    (l : list (delivery (AppFunctionContext:=AppFunctionContext) (Any:=Any))) :
  deliverAll m l = Returned (map (λ _, (false, None)) l, m)
  ∧ ∃ m', deliverAll (NewManager (Event:=Event) ctx service) l
            = Returned (map (λ _, (false, None)) l, m')
        ∧ gochan.buf (dataChan m') = []
        ∧ gochan.cap (dataChan m') = 1%nat.
Proof.
  assert (Hall : ∀ m0 : dataManager Event Ctx ApplicationService,
            deliverAll m0 l = Returned (map (λ _, (false, None)) l, m0)).
  { induction l as [|d l IH]; intros m0; [reflexivity|].
    simpl. destruct d; simpl; rewrite IH; reflexivity. }
  split; [apply Hall|].
  eexists. split; [apply Hall|]. split; reflexivity.
Qed.
End pipeline_more.

(** * The further properties at concrete requests *)

(** A cancel request with a body, on a new response. *)
Lemma cancel_handlers_reply_witness :
  ∃ k, controller.cancelRecording (Event:=nat) (Device:=string) (DeviceProfile:=string)
         (sample.post ∅ ∅ sample.Garbage) http.NewRecorder
       = controller.Invoke controller.CancelRecording k
     ∧ ∃ w, k None = controller.Done w ∧ http.code w = Some http.StatusAccepted.
Proof.
  destruct (cancel_handlers_reply (Event:=nat) (Device:=string) (DeviceProfile:=string)
              (sample.post ∅ ∅ sample.Garbage) http.NewRecorder eq_refl)
    as [(k & Hk & (w & Hw & Hcode & _) & _) _].
  exists k. split; [apply Hk|]. exists w. split; [exact Hw|exact Hcode].
Defined.

(** A record request with a negative duration and a negative event
    limit is refused for its duration. *)
Lemma startRecording_bodies_witness :
  ∃ w, controller.startRecording (L:=sample.lib)
         (sample.post ∅ ∅ (sample.RecordJSON {| dtos.Duration := -1; dtos.EventLimit := -2 |}))
         http.NewRecorder = controller.Done w
     ∧ http.body w = "Record request failed validation: Duration must be > 0 when set".
Proof.
  destruct (proj2 (startRecording_bodies (L:=sample.lib)
                     (sample.post ∅ ∅ (sample.RecordJSON
                        {| dtos.Duration := -1; dtos.EventLimit := -2 |}))
                     http.NewRecorder eq_refl) _ eq_refl)
    as (_ & Hduration & _).
  destruct (Hduration ltac:(simpl; lia)) as (w & Hw & Hbody & _).
  exists w. split; [exact Hw|exact Hbody].
Defined.

(** A replay request with a rate of zero and a negative repeat count is
    refused for its rate. *)
Lemma startReplay_bodies_witness :
  ∃ w, controller.startReplay (L:=sample.lib)
         (sample.post ∅ ∅ (sample.ReplayJSON
            {| dtos.ReplayRate := S754_zero false; dtos.RepeatCount := -1 |}))
         http.NewRecorder = controller.Done w
     ∧ http.body w = "Replay request failed validation: Replay Rate must be greater than 0".
Proof.
  destruct (proj2 (startReplay_bodies (L:=sample.lib)
                     (sample.post ∅ ∅ (sample.ReplayJSON
                        {| dtos.ReplayRate := S754_zero false; dtos.RepeatCount := -1 |}))
                     http.NewRecorder eq_refl) _ eq_refl)
    as (Hrate & _).
  destruct (Hrate eq_refl) as (w & Hw & Hbody).
  exists w. split; [exact Hw|exact Hbody].
Defined.

(** [overwrite=yes] is refused. *)
Lemma importRecordedData_overwrite_values_witness :
  ∃ w, controller.importRecordedData (L:=sample.lib)
         (sample.post sample.jsonHeader {[ "overwrite" := ["yes"] ]}
            (sample.DataJSON sample.recording))
         http.NewRecorder = controller.Done w
     ∧ http.code w = Some http.StatusBadRequest.
Proof.
  destruct (proj2 (importRecordedData_overwrite_values (L:=sample.lib)
                     (sample.post sample.jsonHeader {[ "overwrite" := ["yes"] ]}
                        (sample.DataJSON sample.recording))
                     http.NewRecorder eq_refl ltac:(vm_compute; reflexivity)))
    as [(w & Hw & Hcode & _) _].
  - intros flag. vm_compute. discriminate.
  - exists w. split; [exact Hw|exact Hcode].
Defined.

(** A body announced as gzip that is not a gzip stream. *)
Lemma importRecordedData_unreadable_body_witness :
  ∃ w, controller.importRecordedData (L:=sample.lib) sample_bytes.mislabelled
         http.NewRecorder = controller.Done w
     ∧ http.body w = "failed to uncompress data: gzip: invalid header".
Proof.
  destruct (importRecordedData_unreadable_body (L:=sample.lib)
              sample_bytes.mislabelled http.NewRecorder true eq_refl
              ltac:(vm_compute; reflexivity) ltac:(vm_compute; reflexivity))
    as (Hgzip & _).
  destruct (Hgzip "gzip: invalid header" ltac:(vm_compute; reflexivity) eq_refl)
    as (w & Hw & _ & Hbody).
  exists w. split; [exact Hw|exact Hbody].
Defined.

(** A complete recording posted with [overwrite=0] reaches the store. *)
Lemma importRecordedData_complete_payload_witness :
  ∃ w, controller.run sample.store
         (controller.importRecordedData (L:=sample.lib)
            (sample.post sample.jsonHeader {[ "overwrite" := ["0"] ]}
               (sample.DataJSON sample.recording))
            http.NewRecorder) None
       = Returned (w, Some sample.recording)
     ∧ http.code w = Some http.StatusAccepted.
Proof.
  destruct (importRecordedData_complete_payload (L:=sample.lib)
              (sample.post sample.jsonHeader {[ "overwrite" := ["0"] ]}
                 (sample.DataJSON sample.recording))
              http.NewRecorder false (sample.DataJSON sample.recording) sample.recording
              eq_refl ltac:(vm_compute; reflexivity) ltac:(vm_compute; reflexivity)
              ltac:(vm_compute; reflexivity) eq_refl
              ltac:(discriminate) ltac:(discriminate) ltac:(discriminate))
    as (_ & (w0 & Hw0 & Hcode & _) & _ & Hrun).
  destruct (Hrun _ sample.store None (Some sample.recording) None eq_refl)
    as (w & Hw & Hreply & _).
  exists w. split; [exact Hw|].
  rewrite Hw0 in Hreply. injection Hreply as <-. exact Hcode.
Defined.

(** An import whose payload is [null] is one of the three outcomes. *)
Lemma importRecordedData_outcomes_witness :
  controller.importRecordedData (L:=sample.lib)
    (sample.post sample.jsonHeader ∅ sample.NullJSON) http.NewRecorder
  = controller.Panic controller.nilDereference.
Proof.
  destruct (importRecordedData_outcomes (L:=sample.lib)
              (sample.post sample.jsonHeader ∅ sample.NullJSON) http.NewRecorder eq_refl)
    as [(w & Hw & _)|[Hpanic|(data & overwrite & Hcall & _)]].
  - vm_compute in Hw. discriminate Hw.
  - exact Hpanic.
  - vm_compute in Hcall. discriminate Hcall.
Defined.

(** An export with the token [zlib] in lower case. *)
Lemma exportRecordedData_failures_witness :
  ∃ w, controller.run sample.store
         (controller.exportRecordedData (L:=sample.lib)
            (sample.post ∅ {[ "compression" := ["zlib"] ]} sample.Garbage)
            http.NewRecorder) (Some sample.recording)
       = Returned (w, Some sample.recording)
     ∧ http.body w = "compression format not available: zlib".
Proof.
  destruct (exportRecordedData_failures (L:=sample.lib)
              (sample.post ∅ {[ "compression" := ["zlib"] ]} sample.Garbage)
              http.NewRecorder eq_refl)
    as (k & Hk & _ & Hunknown & _).
  destruct (Hunknown ltac:(vm_compute; discriminate) ltac:(vm_compute; discriminate)
              ltac:(vm_compute; discriminate) sample.recording)
    as (w & Hw & Hbody & _).
  exists w. rewrite Hk. simpl. rewrite Hw. split; [reflexivity|exact Hbody].
Defined.

(** The answer to a [ZLIB] export, posted back under its own headers. *)
Lemma compressed_export_headers_refused_witness :
  ∃ w', controller.importRecordedData (L:=sample.lib)
          (sample_bytes.postedBack sample_bytes.zlibAnswer)
          http.NewRecorder = controller.Done w'
      ∧ http.code w' = Some http.StatusBadRequest.
Proof.
  destruct (compressed_export_headers_refused (L:=sample.lib)
              sample.store (Some sample.recording) (Some sample.recording)
              sample_bytes.zlibExport
              http.NewRecorder sample.recording sample_bytes.zlibAnswer
              (sample_bytes.postedBack sample_bytes.zlibAnswer)
              http.NewRecorder eq_refl eq_refl
              ltac:(left; vm_compute; reflexivity) eq_refl
              ltac:(vm_compute; reflexivity) eq_refl)
    as (_ & w' & Hw' & Hcode & _).
  exists w'. split; [exact Hw'|exact Hcode].
Defined.

(** An export without compression, posted back as it is. *)
Lemma uncompressed_export_imports_back_witness :
  ∃ w, controller.run sample.store
         (controller.exportRecordedData (L:=sample.lib)
            sample_bytes.plainExport http.NewRecorder) (Some sample.recording)
       = Returned (w, Some sample.recording)
     ∧ controller.importRecordedData (L:=sample.lib)
         (sample_bytes.postedBack w) http.NewRecorder
       = controller.Invoke (controller.ImportRecordedData sample.recording true)
           (controller.importReply http.NewRecorder).
Proof.
  destruct (uncompressed_export_imports_back (L:=sample.lib)
              sample.store (Some sample.recording) (Some sample.recording)
              sample_bytes.plainExport http.NewRecorder
              sample.recording sample_bytes.exported sample_bytes.asReader
              eq_refl eq_refl eq_refl ltac:(vm_compute; reflexivity) eq_refl eq_refl
              ltac:(vm_compute; reflexivity))
    as (w & Hrun & _ & _ & Hback).
  exists w. split; [exact Hrun|].
  apply (Hback (sample_bytes.postedBack w) http.NewRecorder eq_refl eq_refl eq_refl);
    discriminate.
Defined.

(** A [ZLIB] export, posted back as [deflate]. *)
Lemma compressed_export_imports_back_renamed_witness :
  ∃ w, controller.run sample.store
         (controller.exportRecordedData (L:=sample.lib)
            sample_bytes.zlibExport http.NewRecorder) (Some sample.recording)
       = Returned (w, Some sample.recording)
     ∧ controller.importRecordedData (L:=sample.lib)
         (sample_bytes.deflated (http.body w)) http.NewRecorder
       = controller.Invoke (controller.ImportRecordedData sample.recording true)
           (controller.importReply http.NewRecorder).
Proof.
  destruct (proj1 (compressed_export_imports_back_renamed (L:=sample.lib)
              sample.store (Some sample.recording) (Some sample.recording)
              sample_bytes.zlibExport
              http.NewRecorder sample.recording sample_bytes.exported
              sample_bytes.asReader
              eq_refl eq_refl eq_refl eq_refl ltac:(vm_compute; reflexivity))
            ltac:(vm_compute; reflexivity) ltac:(vm_compute; reflexivity))
    as (w & Hrun & _ & Hback).
  exists w. split; [exact Hrun|].
  apply (Hback (sample_bytes.deflated (http.body w)) http.NewRecorder);
    try (vm_compute; reflexivity); discriminate.
Defined.

(** A manager that reports three captured events. *)
Lemma status_handlers_reply_witness :
  ∃ w, status.recordingStatus (M:=unit) (λ n : nat, inr "{}")
         (λ m, Returned (3%nat, m))
         (sample.post ∅ ∅ sample.Garbage) http.NewRecorder tt = Returned (w, tt)
     ∧ http.code w = Some http.StatusOK.
Proof.
  destruct (proj1 (status_handlers_reply (M:=unit)
                     (λ n : nat, inr "{}") (λ n : nat, inr "{}")
                     (λ m, Returned (3%nat, m)) (λ m, Returned (3%nat, m))
                     (sample.post ∅ ∅ sample.Garbage) http.NewRecorder tt eq_refl))
    as (w & Hw & _ & Hcode & _).
  exists w. split; [apply Hw|exact Hcode].
Defined.

(** * The revised claims at concrete requests *)

(** A JSON [POST /data] whose body is [null], against the sample store:
    the handler panics and the stored recording is not touched. *)
Lemma importRecordedData_null_payload_witness :
  controller.importRecordedData (L:=sample.lib)
    (sample.post sample.jsonHeader ∅ sample.NullJSON) http.NewRecorder
  = controller.Panic controller.nilDereference
  ∧ controller.run sample.store
      (controller.importRecordedData (L:=sample.lib)
         (sample.post sample.jsonHeader ∅ sample.NullJSON) http.NewRecorder)
      (Some sample.recording)
    = Panicked controller.nilDereference.
Proof.
  destruct (importRecordedData_null_payload (L:=sample.lib)
              (sample.post sample.jsonHeader ∅ sample.NullJSON) http.NewRecorder
              true sample.NullJSON)
    as (Hpanic & _ & Hrun).
  - vm_compute. reflexivity.
  - vm_compute. reflexivity.
  - vm_compute. reflexivity.
  - reflexivity.
  - split; [exact Hpanic|]. apply Hrun.
Defined.

(** The same gzip stream of a recording: announced as [gzip] it is
    opened and its recording reaches the data manager; with no
    [Content-Encoding] it is decoded as it is and refused as JSON. *)
Lemma importRecordedData_decompression_by_header_witness :
  controller.importRecordedData (L:=sample.lib) sample_bytes.gzipLabelled
    http.NewRecorder
  = controller.Invoke (controller.ImportRecordedData sample.recording true)
      (controller.importReply http.NewRecorder)
  ∧ controller.importRecordedData (L:=sample.lib) sample_bytes.gzipUnlabelled
      http.NewRecorder
    = controller.Done
        (http.Write ("Unable to process request JSON: " +:+ sample.syntax)
           (http.WriteHeader http.StatusBadRequest http.NewRecorder)).
Proof.
  split.
  - destruct (proj1 (importRecordedData_decompression_by_header (L:=sample.lib)
                       sample_bytes.gzipLabelled http.NewRecorder)
                ltac:(vm_compute; reflexivity) true ltac:(vm_compute; reflexivity))
      as (_ & Hgzip & _ & _ & Hdata & _).
    rewrite (Hgzip ltac:(vm_compute; reflexivity)). simpl.
    apply (Hdata (sample.DataJSON sample.recording) sample.recording eq_refl);
      discriminate.
  - destruct (proj1 (importRecordedData_decompression_by_header (L:=sample.lib)
                       sample_bytes.gzipUnlabelled http.NewRecorder)
                ltac:(vm_compute; reflexivity) true ltac:(vm_compute; reflexivity))
      as (Hplain & _ & _ & _ & _ & Herr).
    rewrite (Hplain ltac:(vm_compute; reflexivity)).
    apply (Herr (sample.Gzipped (sample.DataJSON sample.recording)) sample.syntax eq_refl).
Defined.
